(** * CARMEN log reader: a shallow embedding of [slam_datasets]

    The development embeds [slam_datasets/records.py] and
    [slam_datasets/carmen/carmen_reader.py].

    - Python [int] is [Z]; Python [float] is an IEEE-754 binary64 value,
      taken from the axiom-free specification [SpecFloat] with
      [prec = 53] and [emax = 1024].
    - A Python [str] is a Rocq [string]; a character is read as the code
      point 0..255 of the same number, so the model covers the lines whose
      code points are below 256.  In that range the decimal digits are
      exactly ['0'..'9'] and the white space of [str.split] is the twelve
      code points of [py_isspace].
    - Exceptions are the values of [exn]; a fallible computation returns
      [result A], and [try ... except Exception: return None] is
      [try_except]. *)

From Stdlib Require Import ZArith List Bool Ascii String Lia.
From Stdlib Require Import SpecFloat.
Import ListNotations.

Local Open Scope string_scope.
Local Open Scope list_scope.
Local Open Scope Z_scope.

(** ** Exceptions and the error monad *)

Inductive exn : Type :=
| IndexError
| ValueError
| OverflowError.

Inductive result (A : Type) : Type :=
| Ok (a : A)
| Raise (e : exn).

Arguments Ok {A} a.
Arguments Raise {A} e.

Definition bind {A B : Type} (m : result A) (k : A -> result B) : result B :=
  match m with
  | Ok a => k a
  | Raise e => Raise e
  end.

Notation "x <- m ;; k" := (bind m (fun x => k))
  (at level 61, m at next level, right associativity).

(** [try: body; except Exception: return None] *)
Definition try_except {A : Type} (m : result A) : option A :=
  match m with
  | Ok a => Some a
  | Raise _ => None
  end.

Fixpoint mapM {A B : Type} (f : A -> result B) (l : list A) : result (list B) :=
  match l with
  | [] => Ok []
  | a :: l' => b <- f a ;; bs <- mapM f l' ;; Ok (b :: bs)
  end.

(** ** Python sequences: [len], [tok[i]], [tok[a:b]] *)

Definition len {A : Type} (l : list A) : Z := Z.of_nat (List.length l).

(** [l[i]]: a negative index counts from the end; out of range raises. *)
Definition py_index {A : Type} (l : list A) (i : Z) : result A :=
  let j := if i <? 0 then i + len l else i in
  if j <? 0 then Raise IndexError
  else match nth_error l (Z.to_nat j) with
       | Some a => Ok a
       | None => Raise IndexError
       end.

(** The bound adjustment of a slice with step 1. *)
Definition py_clamp (n i : Z) : Z :=
  if i <? 0 then (if i + n <? 0 then 0 else i + n)
  else if n <=? i then n else i.

(** [l[a:b]]: never raises. *)
Definition py_slice {A : Type} (l : list A) (a b : Z) : list A :=
  let start := py_clamp (len l) a in
  let stop := py_clamp (len l) b in
  firstn (Z.to_nat (stop - start)) (skipn (Z.to_nat start) l).

(** ** Python strings: [split], [strip], [startswith] *)

(** [str.isspace] on the code points below 256. *)
Definition py_isspace (c : ascii) : bool :=
  let n := nat_of_ascii c in
  ((9 <=? n) && (n <=? 13) || (28 <=? n) && (n <=? 32)
   || (n =? 133) || (n =? 160))%nat.

Fixpoint lstrip (s : list ascii) : list ascii :=
  match s with
  | c :: s' => if py_isspace c then lstrip s' else s
  | [] => []
  end.

Definition chars_strip (s : list ascii) : list ascii :=
  rev (lstrip (rev (lstrip s))).

Definition py_strip (s : string) : string :=
  string_of_list_ascii (chars_strip (list_ascii_of_string s)).

(** [split_acc cur s]: [cur] is the token being read, in reverse. *)
Fixpoint split_acc (cur : list ascii) (s : list ascii) : list string :=
  match s with
  | [] =>
      match cur with
      | [] => []
      | _ => [string_of_list_ascii (rev cur)]
      end
  | c :: s' =>
      if py_isspace c then
        match cur with
        | [] => split_acc [] s'
        | _ => string_of_list_ascii (rev cur) :: split_acc [] s'
        end
      else split_acc (c :: cur) s'
  end.

(** [s.split()] *)
Definition py_split (s : string) : list string :=
  split_acc [] (list_ascii_of_string s).

(** [s.startswith(p)] *)
Definition startswith (s p : string) : bool := prefix p s.

(** ** Python numbers *)

Definition float : Type := spec_float.

Definition prec : Z := 53.
Definition emax : Z := 1024.

Definition fopp : float -> float := SFopp.
Definition fsub : float -> float -> float := SFsub prec emax.
Definition fdiv : float -> float -> float := SFdiv prec emax.
(** [a < b] on floats; false when either is a NaN. *)
Definition fltb : float -> float -> bool := SFltb.

(** The literal [0.0]. *)
Definition f0 : float := S754_zero false.
(** The literal [2.0]. *)
Definition f2 : float := S754_finite false 4503599627370496 (-51).
(** [math.pi], the double nearest to pi: 0x1.921fb54442d18p+1. *)
Definition math_pi : float := S754_finite false 7074237752028440 (-51).

Definition is_digit (c : ascii) : bool :=
  let n := nat_of_ascii c in ((48 <=? n) && (n <=? 57))%nat.

Definition digit_val (c : ascii) : Z := Z.of_nat (nat_of_ascii c) - 48.

(** The value of a run of decimal digits, most significant first. *)
Definition digits_val (ds : list ascii) : Z :=
  fold_left (fun acc c => 10 * acc + digit_val c) ds 0.

(** The underscores of a numeral: each one stands between two digits.
    Returns the numeral without them. *)
Fixpoint strip_underscores (prev : option ascii) (s : list ascii)
  : option (list ascii) :=
  match s with
  | [] => Some []
  | c :: s' =>
      if Ascii.eqb c "_" then
        match prev, s' with
        | Some p, d :: _ =>
            if is_digit p && is_digit d then strip_underscores (Some c) s'
            else None
        | _, _ => None
        end
      else option_map (cons c) (strip_underscores (Some c) s')
  end.

(** An optional sign: [(negative, rest)]. *)
Definition take_sign (s : list ascii) : bool * list ascii :=
  match s with
  | c :: s' =>
      if Ascii.eqb c "-" then (true, s')
      else if Ascii.eqb c "+" then (false, s')
      else (false, s)
  | [] => (false, [])
  end.

(** The longest run of digits at the front, and what follows it. *)
Fixpoint span_digits (s : list ascii) : list ascii * list ascii :=
  match s with
  | c :: s' =>
      if is_digit c then let '(ds, r) := span_digits s' in (c :: ds, r)
      else ([], s)
  | [] => ([], [])
  end.

(** [sys.get_int_max_str_digits()], the default of CPython: a decimal
    numeral with more digits is refused by [int] with a [ValueError]. *)
Definition int_max_str_digits : Z := 4300.

(** [int(s)] for a token [s] (no white space inside): an optional sign and
    decimal digits, single underscores between digits allowed. *)
Definition py_int (s : string) : result Z :=
  let '(neg, body) := take_sign (list_ascii_of_string s) in
  match strip_underscores None body with
  | None => Raise ValueError
  | Some ds =>
      match ds with
      | [] => Raise ValueError
      | _ =>
          if forallb is_digit ds then
            if int_max_str_digits <? len ds then Raise ValueError
            else Ok (if neg then - digits_val ds else digits_val ds)
          else Raise ValueError
      end
  end.

Definition lower (c : ascii) : ascii :=
  let n := nat_of_ascii c in
  if ((65 <=? n) && (n <=? 90))%nat then ascii_of_nat (n + 32) else c.

Definition lower_string (s : list ascii) : string :=
  string_of_list_ascii (map lower s).

(** The double nearest to [m * 10^e] (ties to even), signed by [neg];
    out of range gives an infinity, as [float] does. *)
Definition decimal_to_float (neg : bool) (m e : Z) : float :=
  match m with
  | Zpos p =>
      if 0 <=? e then
        binary_normalize prec emax (if neg then - (m * 10 ^ e) else m * 10 ^ e)
          0 false
      else
        SFdiv prec emax (S754_finite neg p 0)
          (S754_finite false (Z.to_pos (10 ^ (- e))) 0)
  | _ => S754_zero neg
  end.

(** The exponent part of a decimal numeral: empty, or [e] or [E], an
    optional sign and at least one digit, up to the end. *)
Definition parse_exponent (s : list ascii) : option Z :=
  match s with
  | [] => Some 0
  | c :: s' =>
      if Ascii.eqb (lower c) "e" then
        let '(neg, r) := take_sign s' in
        match r with
        | [] => None
        | _ =>
            if forallb is_digit r
            then Some (if neg then - digits_val r else digits_val r)
            else None
        end
      else None
  end.

(** A decimal numeral: digits, an optional point and digits, at least one
    digit in all, then the exponent part. *)
Definition parse_decimal (neg : bool) (s : list ascii) : option float :=
  let '(ip, r) := span_digits s in
  let '(fp, r') :=
    match r with
    | c :: r1 => if Ascii.eqb c "." then span_digits r1 else ([], r)
    | [] => ([], [])
    end in
  match ip ++ fp with
  | [] => None
  | ds =>
      match parse_exponent r' with
      | Some ex => Some (decimal_to_float neg (digits_val ds) (ex - len fp))
      | None => None
      end
  end.

(** [float(s)] for a token [s] (no white space inside). *)
Definition py_float (s : string) : result float :=
  match strip_underscores None (list_ascii_of_string s) with
  | None => Raise ValueError
  | Some cs =>
      let '(neg, body) := take_sign cs in
      let w := lower_string body in
      if String.eqb w "inf" || String.eqb w "infinity" then Ok (S754_infinity neg)
      else if String.eqb w "nan" then Ok S754_nan
      else match parse_decimal neg body with
           | Some f => Ok f
           | None => Raise ValueError
           end
  end.

(** The conversion of an [int] to a [float]: nearest, ties to even;
    [OverflowError] when the result is not finite. *)
Definition py_int_to_float (z : Z) : result float :=
  match binary_normalize prec emax z 0 false with
  | S754_infinity _ => Raise OverflowError
  | f => Ok f
  end.

(** [f / z] for a float [f] and an int [z]. *)
Definition py_truediv_int (f : float) (z : Z) : result float :=
  d <- py_int_to_float z ;; Ok (fdiv f d).

(** The loop of [max(iterable)]: the running maximum is replaced when the
    next item is greater. *)
Fixpoint max_from (m : float) (l : list float) : float :=
  match l with
  | [] => m
  | a :: l' => max_from (if fltb m a then a else m) l'
  end.

(** [max(ranges) if ranges else 0.0] *)
Definition max_or_zero (ranges : list float) : float :=
  match ranges with
  | [] => f0
  | a :: l => max_from a l
  end.

(** ** [slam_datasets/records.py] *)

Record Pose2D : Type := mkPose2D {
  x : float;
  y : float;
  yaw : float
}.

Record LaserScan2DRecord : Type := mkLaserScan2DRecord {
  stamp : float;
  frame_id : string;
  angle_min : float;
  angle_increment : float;
  range_min : float;
  range_max : float;
  ranges : list float;
  robot_pose : option Pose2D;
  laser_pose : option Pose2D;
  tv : option float;
  rv : option float
}.

(** ** [slam_datasets/carmen/carmen_reader.py] *)

(** The attributes [CarmenLogReader.__init__] sets. *)
Record CarmenLogReader : Type := mkCarmenLogReader {
  _path : string;
  _scan_frame_id : string;
  _prefer_msg_ts : bool
}.

(** [CarmenLogReader(path)], with the defaults of [__init__]. *)
Definition CarmenLogReader_default (path : string) : CarmenLogReader :=
  mkCarmenLogReader path "laser" true.

(** [tok = line.strip().split()] *)
Definition tokens (line : string) : list string := py_split (py_strip line).

(** [float(tok[i])] and [int(tok[i])] *)
Definition float_at (tok : list string) (i : Z) : result float :=
  t <- py_index tok i ;; py_float t.

Definition int_at (tok : list string) (i : Z) : result Z :=
  t <- py_index tok i ;; py_int t.

(** [Pose2D(float(tok[idx]), float(tok[idx+1]), float(tok[idx+2]))] *)
Definition pose_at (tok : list string) (idx : Z) : result Pose2D :=
  px <- float_at tok idx ;;
  py <- float_at tok (idx + 1) ;;
  pth <- float_at tok (idx + 2) ;;
  Ok (mkPose2D px py pth).

(** What [_parse_robotlaser] holds after the range run (lines 48-59):
    the fields it keeps, the beam count and the cursor. *)
Record robotlaser_header : Type := mkHeader {
  h_start_angle : float;
  h_ang_res : float;
  h_max_range : float;
  h_n : Z;
  h_ranges : list float;
  h_idx : Z
}.

(** Lines 48-59: the fixed prefix and the range run. *)
Definition robotlaser_prefix (tok : list string) : result robotlaser_header :=
  let idx := 1 in
  _laser_type <- int_at tok idx ;; let idx := idx + 1 in
  start_angle <- float_at tok idx ;; let idx := idx + 1 in
  _fov <- float_at tok idx ;; let idx := idx + 1 in
  ang_res <- float_at tok idx ;; let idx := idx + 1 in
  max_range <- float_at tok idx ;; let idx := idx + 1 in
  _accuracy <- float_at tok idx ;; let idx := idx + 1 in
  _remission_mode <- int_at tok idx ;; let idx := idx + 1 in
  n <- int_at tok idx ;; let idx := idx + 1 in
  ranges <- mapM py_float (py_slice tok idx (idx + n)) ;;
  let idx := idx + n in
  Ok (mkHeader start_angle ang_res max_range n ranges idx).

Definition min_tail_A : Z := 15.

(** Lines 67-76: the cursor after the variant test. *)
Definition skip_tooclose (tok : list string) (idx n : Z) : Z :=
  let remaining := len tok - idx in
  if remaining >? min_tail_A + n then idx + n else idx.

(** Lines 79-110: the tail both variants share, from cursor [idx]. *)
Definition robotlaser_tail (self : CarmenLogReader) (tok : list string)
    (h : robotlaser_header) (idx : Z) : result LaserScan2DRecord :=
  num_rem <- int_at tok idx ;; let idx := idx + 1 in
  let idx := idx + num_rem in
  laser_pose <- pose_at tok idx ;; let idx := idx + 3 in
  robot_pose <- pose_at tok idx ;; let idx := idx + 3 in
  tv <- float_at tok idx ;; let idx := idx + 1 in
  rv <- float_at tok idx ;; let idx := idx + 1 in
  let idx := idx + 3 in
  stamp <- float_at tok idx ;;
  Ok {| stamp := stamp;
        frame_id := _scan_frame_id self;
        angle_min := h_start_angle h;
        angle_increment := h_ang_res h;
        range_min := f0;
        range_max := h_max_range h;
        ranges := h_ranges h;
        robot_pose := Some robot_pose;
        laser_pose := Some laser_pose;
        tv := Some tv;
        rv := Some rv |}.

(** The body of the [try] of [_parse_robotlaser]. *)
Definition robotlaser_body (self : CarmenLogReader) (tok : list string)
  : result LaserScan2DRecord :=
  h <- robotlaser_prefix tok ;;
  robotlaser_tail self tok h (skip_tooclose tok (h_idx h) (h_n h)).

Definition _parse_robotlaser (self : CarmenLogReader) (line : string)
  : option LaserScan2DRecord :=
  let tok := tokens line in
  try_except (robotlaser_body self tok).

(** The body of the [try] of [_parse_flaser]. *)
Definition flaser_body (self : CarmenLogReader) (tok : list string)
  : result LaserScan2DRecord :=
  let idx := 0 in
  let idx := idx + 1 in
  n <- int_at tok idx ;; let idx := idx + 1 in
  ranges <- mapM py_float (py_slice tok idx (idx + n)) ;;
  let idx := idx + n in
  px <- float_at tok idx ;;
  py <- float_at tok (idx + 1) ;;
  th <- float_at tok (idx + 2) ;;
  let robot_pose := mkPose2D px py th in
  stamp <- float_at tok (-3) ;;
  let angle_min := fdiv (fopp math_pi) f2 in
  let angle_max := fdiv math_pi f2 in
  angle_increment <- py_truediv_int (fsub angle_max angle_min) (Z.max (n - 1) 1) ;;
  Ok {| stamp := stamp;
        frame_id := _scan_frame_id self;
        angle_min := angle_min;
        angle_increment := angle_increment;
        range_min := f0;
        range_max := max_or_zero ranges;
        ranges := ranges;
        robot_pose := Some robot_pose;
        laser_pose := None;
        tv := None;
        rv := None |}.

Definition _parse_flaser (self : CarmenLogReader) (line : string)
  : option LaserScan2DRecord :=
  let tok := tokens line in
  try_except (flaser_body self tok).

Definition _parse_rlaser (self : CarmenLogReader) (line : string)
  : option LaserScan2DRecord :=
  _parse_flaser self line.

(** [not line or line[0] == "#"] *)
Definition skipped (line : string) : bool :=
  match line with
  | EmptyString => true
  | String c _ => Ascii.eqb c "#"
  end.

(** The value of [rec] after the dispatch on the tag (lines 32-39). *)
Definition dispatch (self : CarmenLogReader) (line : string)
  : option LaserScan2DRecord :=
  if startswith line "ROBOTLASER" then _parse_robotlaser self line
  else if startswith line "FLASER " then _parse_flaser self line
  else if startswith line "RLASER " then _parse_rlaser self line
  else None.

(** [iter_scans], on the lines the opened text stream gives: the records
    yielded, in order. *)
Fixpoint iter_scans (self : CarmenLogReader) (lines : list string)
  : list LaserScan2DRecord :=
  match lines with
  | [] => []
  | line :: rest =>
      if skipped line then iter_scans self rest
      else match dispatch self line with
           | Some rec => rec :: iter_scans self rest
           | None => iter_scans self rest
           end
  end.

(** ** Specification-side definitions *)

(** The two tail layouts of the robot-laser message. *)
Inductive layout : Type :=
| LayoutA
| LayoutB.

(** The resolution rule in the specification's words: Layout B when more
    than [15 + n] tokens are left after the range run. *)
Definition classify (remaining n : Z) : layout :=
  if remaining >? 15 + n then LayoutB else LayoutA.

(** Where the remission count is read: Layout B skips the [n] flags. *)
Definition remission_cursor (idx n : Z) (l : layout) : Z :=
  match l with
  | LayoutA => idx
  | LayoutB => idx + n
  end.

(** [float(z)] for an int [z] in the range of [float]. *)
Definition Z_to_float (z : Z) : float := binary_normalize prec emax z 0 false.

(** The line of the legacy-format example, and a reader to decode it. *)
Definition example_reader : CarmenLogReader := CarmenLogReader_default "run.log".

Definition flaser_example_line : string :=
  "FLASER 3 1.0 2.0 3.0 0.5 0.5 0.0 0.5 0.5 0.0 1000.0 host 1000.1".

(** A legacy line that ends with its pose: no timestamp trailer. *)
Definition flaser_no_trailer_line : string := "FLASER 1 1.0 2.0 3.0 4.0".

(** A legacy line that declares a negative beam count. *)
Definition flaser_negative_count_line : string :=
  "FLASER -1 1.0 2.0 3.0 4.0 host 5.0".

(** A robot-laser line in Layout A: one beam, no remission value. *)
Definition robotlaser_A_line : string :=
  "ROBOTLASER1 0 -1.5 3.1 0.01 80.0 0.01 0 1 2.5 0 1.0 2.0 3.0 4.0 5.0 6.0 0.1 0.2 0.3 0.4 0.5 1000.0 host 1000.1".

(** The values the legacy-format example names. *)
Definition float_half : float := fdiv (Z_to_float 1) (Z_to_float 2).
Definition pi_over_2 : float := fdiv math_pi (Z_to_float 2).
Definition pi_over_4 : float := fdiv math_pi (Z_to_float 4).
Definition minus_pi_over_2 : float := fdiv (fopp math_pi) f2.

(** A token [float] accepts. *)
Definition is_numeral (t : string) : bool :=
  match py_float t with
  | Ok _ => true
  | Raise _ => false
  end.

(** How many of the tokens after position [k] are numerals. *)
Definition numerals_after (tok : list string) (k : nat) : Z :=
  len (filter is_numeral (skipn (S k) tok)).

(** A line whose tag the dispatch recognizes. *)
Definition recognized (line : string) : bool :=
  startswith line "ROBOTLASER" || startswith line "FLASER "
  || startswith line "RLASER ".




(** Two well-formed lines and three malformed ones: a short token list, an
    unparsable numeral, and a beam count with too few readings. *)
Definition good_lines : list string :=
  [ "FLASER 1 1.0 2.0 3.0 4.0 9.5 host 9.6";
    "ROBOTLASER1 0 -1.5 3.1 0.01 80.0 0.01 0 1 2.5 0 1.0 2.0 3.0 4.0 5.0 6.0 0.1 0.2 0.3 0.4 0.5 1000.0 host 1000.1" ].



(** A legacy line that declares five beams and carries four numerals. *)
Definition flaser_short_line : string := "FLASER 5 1.0 2.0 3.0 4.0 host".

(** *** Well-formed robot-laser lines *)

(** The tokens of a robot-laser line, field by field. *)
Record robotlaser_fields : Type := mkFields {
  t_tag : string;
  t_laser_type : string;
  t_start_angle : string;
  t_fov : string;
  t_ang_res : string;
  t_max_range : string;
  t_accuracy : string;
  t_remission_mode : string;
  t_n : string;
  t_ranges : list string;
  t_num_rem : string;
  t_remissions : list string;
  t_laser_x : string;
  t_laser_y : string;
  t_laser_yaw : string;
  t_robot_x : string;
  t_robot_y : string;
  t_robot_yaw : string;
  t_tv : string;
  t_rv : string;
  t_forward_safety : string;
  t_side_safety : string;
  t_turn_axis : string;
  t_ipc_timestamp : string;
  t_ipc_hostname : string;
  t_logger_timestamp : string
}.

(** The tag and the eight fixed fields, the beam count last. *)
Definition head_tokens (f : robotlaser_fields) : list string :=
  [ t_tag f; t_laser_type f; t_start_angle f; t_fov f; t_ang_res f;
    t_max_range f; t_accuracy f; t_remission_mode f; t_n f ].

(** The fourteen tokens after the remission values: two poses, two
    velocities, three safety fields and the timestamp triplet. *)
Definition tail_tokens (f : robotlaser_fields) : list string :=
  [ t_laser_x f; t_laser_y f; t_laser_yaw f;
    t_robot_x f; t_robot_y f; t_robot_yaw f;
    t_tv f; t_rv f;
    t_forward_safety f; t_side_safety f; t_turn_axis f;
    t_ipc_timestamp f; t_ipc_hostname f; t_logger_timestamp f ].

(** A line with the flag tokens [flags] between the range run and the
    remission count. *)
Definition robotlaser_tokens (f : robotlaser_fields) (flags : list string)
  : list string :=
  head_tokens f ++ t_ranges f ++ flags
  ++ (t_num_rem f :: t_remissions f) ++ tail_tokens f.

(** Layout A has no flag token; Layout B has one per beam. *)
Definition layoutA_tokens (f : robotlaser_fields) : list string :=
  robotlaser_tokens f [].

Definition layoutB_tokens (f : robotlaser_fields) (flags : list string)
  : list string :=
  robotlaser_tokens f flags.

(** The values the kept fields decode to. *)
Record robotlaser_values : Type := mkValues {
  v_start_angle : float;
  v_ang_res : float;
  v_max_range : float;
  v_ranges : list float;
  v_laser_pose : Pose2D;
  v_robot_pose : Pose2D;
  v_tv : float;
  v_rv : float;
  v_ipc_timestamp : float
}.

(** The fields are well formed and decode to [v]: every numeral parses,
    the beam count is the number of range tokens and the remission count
    is the number of remission tokens. *)
Record well_formed (f : robotlaser_fields) (v : robotlaser_values) : Prop := {
  wf_laser_type : exists k, py_int (t_laser_type f) = Ok k;
  wf_start_angle : py_float (t_start_angle f) = Ok (v_start_angle v);
  wf_fov : exists a, py_float (t_fov f) = Ok a;
  wf_ang_res : py_float (t_ang_res f) = Ok (v_ang_res v);
  wf_max_range : py_float (t_max_range f) = Ok (v_max_range v);
  wf_accuracy : exists a, py_float (t_accuracy f) = Ok a;
  wf_remission_mode : exists k, py_int (t_remission_mode f) = Ok k;
  wf_n : py_int (t_n f) = Ok (len (t_ranges f));
  wf_ranges : mapM py_float (t_ranges f) = Ok (v_ranges v);
  wf_num_rem : py_int (t_num_rem f) = Ok (len (t_remissions f));
  wf_laser_x : py_float (t_laser_x f) = Ok (x (v_laser_pose v));
  wf_laser_y : py_float (t_laser_y f) = Ok (y (v_laser_pose v));
  wf_laser_yaw : py_float (t_laser_yaw f) = Ok (yaw (v_laser_pose v));
  wf_robot_x : py_float (t_robot_x f) = Ok (x (v_robot_pose v));
  wf_robot_y : py_float (t_robot_y f) = Ok (y (v_robot_pose v));
  wf_robot_yaw : py_float (t_robot_yaw f) = Ok (yaw (v_robot_pose v));
  wf_tv : py_float (t_tv f) = Ok (v_tv v);
  wf_rv : py_float (t_rv f) = Ok (v_rv v);
  wf_ipc_timestamp : py_float (t_ipc_timestamp f) = Ok (v_ipc_timestamp v)
}.

(** The record the specification describes for these values. *)
Definition robotlaser_record (self : CarmenLogReader) (v : robotlaser_values)
  : LaserScan2DRecord :=
  {| stamp := v_ipc_timestamp v;
     frame_id := _scan_frame_id self;
     angle_min := v_start_angle v;
     angle_increment := v_ang_res v;
     range_min := f0;
     range_max := v_max_range v;
     ranges := v_ranges v;
     robot_pose := Some (v_robot_pose v);
     laser_pose := Some (v_laser_pose v);
     tv := Some (v_tv v);
     rv := Some (v_rv v) |}.

(** The threshold resolves the layout of the line rightly: with [n] beams
    and [num_rem] remission values, a line without flags is read as
    Layout A and a line with [n] flags as Layout B.  (With [n = 0] the two
    layouts are the same line.) *)
Definition rightly_resolved (n num_rem : Z) (flags : list string) : Prop :=
  (flags = [] /\ (num_rem <= n \/ n = 0))
  \/ (len flags = n /\ (0 < num_rem \/ n = 0)).

(** A one-beam line in both layouts, without remission values. *)
Definition one_beam_fields : robotlaser_fields :=
  {| t_tag := "ROBOTLASER1"; t_laser_type := "0"; t_start_angle := "-1.5";
     t_fov := "3.1"; t_ang_res := "0.01"; t_max_range := "80.0";
     t_accuracy := "0.01"; t_remission_mode := "0"; t_n := "1";
     t_ranges := ["2.5"]; t_num_rem := "0"; t_remissions := [];
     t_laser_x := "1.0"; t_laser_y := "2.0"; t_laser_yaw := "3.0";
     t_robot_x := "4.0"; t_robot_y := "5.0"; t_robot_yaw := "6.0";
     t_tv := "0.1"; t_rv := "0.2";
     t_forward_safety := "0.3"; t_side_safety := "0.4"; t_turn_axis := "0.5";
     t_ipc_timestamp := "1000.0"; t_ipc_hostname := "host";
     t_logger_timestamp := "1000.1" |}.

(** [float(t)] when [t] parses, and [0.0] otherwise. *)
Definition float_of (t : string) : float :=
  match py_float t with
  | Ok v => v
  | Raise _ => f0
  end.

(** The values of fields that are well formed. *)
Definition values_of (f : robotlaser_fields) : robotlaser_values :=
  {| v_start_angle := float_of (t_start_angle f);
     v_ang_res := float_of (t_ang_res f);
     v_max_range := float_of (t_max_range f);
     v_ranges := map float_of (t_ranges f);
     v_laser_pose :=
       mkPose2D (float_of (t_laser_x f)) (float_of (t_laser_y f))
         (float_of (t_laser_yaw f));
     v_robot_pose :=
       mkPose2D (float_of (t_robot_x f)) (float_of (t_robot_y f))
         (float_of (t_robot_yaw f));
     v_tv := float_of (t_tv f);
     v_rv := float_of (t_rv f);
     v_ipc_timestamp := float_of (t_ipc_timestamp f) |}.

Definition one_beam_B_line : string :=
  "ROBOTLASER1 0 -1.5 3.1 0.01 80.0 0.01 0 1 2.5 0 0 1.0 2.0 3.0 4.0 5.0 6.0 0.1 0.2 0.3 0.4 0.5 1000.0 host 1000.1".

(** A two-beam line, in Layout B without remission values and in both
    layouts with two of them. *)
Definition two_beam_fields : robotlaser_fields :=
  {| t_tag := "ROBOTLASER1"; t_laser_type := "0"; t_start_angle := "-1.5";
     t_fov := "3.1"; t_ang_res := "0.01"; t_max_range := "80.0";
     t_accuracy := "0.01"; t_remission_mode := "0"; t_n := "2";
     t_ranges := ["2.5"; "2.75"]; t_num_rem := "0"; t_remissions := [];
     t_laser_x := "1.0"; t_laser_y := "2.0"; t_laser_yaw := "3.0";
     t_robot_x := "4.0"; t_robot_y := "5.0"; t_robot_yaw := "6.0";
     t_tv := "0.1"; t_rv := "0.2";
     t_forward_safety := "0.3"; t_side_safety := "0.4"; t_turn_axis := "0.5";
     t_ipc_timestamp := "1000.0"; t_ipc_hostname := "host";
     t_logger_timestamp := "1000.1" |}.

Definition two_beam_B_line : string :=
  "ROBOTLASER1 0 -1.5 3.1 0.01 80.0 0.01 0 2 2.5 2.75 0 0 0 1.0 2.0 3.0 4.0 5.0 6.0 0.1 0.2 0.3 0.4 0.5 1000.0 host 1000.1".

Definition two_remission_fields : robotlaser_fields :=
  {| t_tag := "ROBOTLASER1"; t_laser_type := "0"; t_start_angle := "-1.5";
     t_fov := "3.1"; t_ang_res := "0.01"; t_max_range := "80.0";
     t_accuracy := "0.01"; t_remission_mode := "1"; t_n := "2";
     t_ranges := ["2.5"; "2.75"]; t_num_rem := "2"; t_remissions := ["7"; "8"];
     t_laser_x := "1.0"; t_laser_y := "2.0"; t_laser_yaw := "3.0";
     t_robot_x := "4.0"; t_robot_y := "5.0"; t_robot_yaw := "6.0";
     t_tv := "0.1"; t_rv := "0.2";
     t_forward_safety := "0.3"; t_side_safety := "0.4"; t_turn_axis := "0.5";
     t_ipc_timestamp := "1000.0"; t_ipc_hostname := "host";
     t_logger_timestamp := "1000.1" |}.

Definition two_remission_A_line : string :=
  "ROBOTLASER1 0 -1.5 3.1 0.01 80.0 0.01 1 2 2.5 2.75 2 7 8 1.0 2.0 3.0 4.0 5.0 6.0 0.1 0.2 0.3 0.4 0.5 1000.0 host 1000.1".

Definition two_remission_B_line : string :=
  "ROBOTLASER1 0 -1.5 3.1 0.01 80.0 0.01 1 2 2.5 2.75 0 1 2 7 8 1.0 2.0 3.0 4.0 5.0 6.0 0.1 0.2 0.3 0.4 0.5 1000.0 host 1000.1".

(** *** Well-formed legacy lines *)

(** The tokens of a legacy line: tag, beam count, range run, the three
    pose tokens, and what follows them. *)
Definition legacy_tokens (tag ntok : string) (rtoks : list string)
    (xt yt tht : string) (rest : list string) : list string :=
  tag :: ntok :: rtoks ++ xt :: yt :: tht :: rest.

(** [a <= b] on floats; false when either is a NaN. *)
Definition fleb : float -> float -> bool := SFleb.

Definition is_nan (f : float) : bool :=
  match f with
  | S754_nan => true
  | _ => false
  end.

(** A legacy line with its trailer, and the two-token range run in it. *)
Definition legacy_example_line : string :=
  "RLASER 2 1.5 0.5 4.0 5.0 6.0 7.0 8.0 9.0 1000.0 host 1000.1".

(** *** Records that differ in the frame label *)

(** [dataclasses.replace(rec, frame_id=fid)] *)
Definition with_frame_id (fid : string) (rec : LaserScan2DRecord)
  : LaserScan2DRecord :=
  {| stamp := stamp rec;
     frame_id := fid;
     angle_min := angle_min rec;
     angle_increment := angle_increment rec;
     range_min := range_min rec;
     range_max := range_max rec;
     ranges := ranges rec;
     robot_pose := robot_pose rec;
     laser_pose := laser_pose rec;
     tv := tv rec;
     rv := rv rec |}.

(** ** [slam_datasets/scripts/validate_carmen_log.py] *)

Definition LOG_PATH : string :=
  "/home/matheus/data/datasets/csail-newcarmen.log/mit-csail-3rd-floor-2005-12-17-run4.log".

(** [reader = CarmenLogReader(LOG_PATH)] *)
Definition reader : CarmenLogReader := CarmenLogReader_default LOG_PATH.

(** The two lists the loop over [reader.iter_scans()] fills. *)
Definition stamps_of (scans : list LaserScan2DRecord) : list float :=
  map stamp scans.

Definition scan_sizes_of (scans : list LaserScan2DRecord) : list Z :=
  map (fun scan => len (ranges scan)) scans.

(** [all(stamps[i] < stamps[i+1] for i in range(len(stamps)-1))] *)
Fixpoint monotonic (stamps : list float) : bool :=
  match stamps with
  | a :: rest =>
      match rest with
      | b :: _ => fltb a b && monotonic rest
      | [] => true
      end
  | [] => true
  end.

(** [set(scan_sizes)], as a list without repetition. *)
Definition unique_sizes (scan_sizes : list Z) : list Z :=
  nodup Z.eq_dec scan_sizes.

(** [any(n == 0 for n in scan_sizes)] *)
Definition any_empty_scans (scan_sizes : list Z) : bool :=
  existsb (fun n => n =? 0) scan_sizes.

(** [any(math.isnan(t) for t in stamps)] *)
Definition any_nans (stamps : list float) : bool :=
  existsb is_nan stamps.

(** What the script prints for the lines of the log, the scan period
    statistics of lines 27-31 apart. *)
Record validation : Type := mkValidation {
  total_scans : Z;
  timestamps_strictly_increasing : bool;
  unique_scan_sizes : list Z;
  any_empty : bool;
  any_nan : bool
}.

Definition validate_carmen_log (lines : list string) : validation :=
  let scans := iter_scans reader lines in
  let stamps := stamps_of scans in
  let scan_sizes := scan_sizes_of scans in
  {| total_scans := len stamps;
     timestamps_strictly_increasing := monotonic stamps;
     unique_scan_sizes := unique_sizes scan_sizes;
     any_empty := any_empty_scans scan_sizes;
     any_nan := any_nans stamps |}.

(** A line as the text stream gives it, with its newline. *)
Definition with_newline (s : string) : string :=
  String.append s (String "010" EmptyString).

(** A log for the examples: a comment, two legacy scans around a blank
    line, a robot-laser scan, an indented line and a parameter line. *)
Definition example_log : list string :=
  map with_newline
    [ "# CARMEN log";
      "FLASER 2 1.5 0.5 4.0 5.0 6.0 7.0 8.0 9.0 1000.0 host 1000.1";
      "";
      "RLASER 2 1.5 0.5 4.0 5.0 6.0 7.0 8.0 9.0 1000.5 host 1000.6";
      "ROBOTLASER1 0 -1.5 3.1 0.01 80.0 0.01 0 1 2.5 0 1.0 2.0 3.0 4.0 5.0 6.0 0.1 0.2 0.3 0.4 0.5 1001.0 host 1001.1";
      " FLASER 2 1.5 0.5 4.0 5.0 6.0 7.0 8.0 9.0 1002.0 host 1002.1";
      "PARAM robot_length 0.5" ].

(** * Properties *)

(** ** The error monad *)

Lemma bind_ok_inv {A B : Type} (m : result A) (k : A -> result B) (b : B) :
  bind m k = Ok b -> exists a, m = Ok a /\ k a = Ok b.
Proof.
  destruct m as [a | e]; simpl; intros H; [ | discriminate H ].
  exists a; split; [ reflexivity | exact H ].
Qed.

Lemma try_except_some {A : Type} (m : result A) (a : A) :
  try_except m = Some a <-> m = Ok a.
Proof.
  destruct m; simpl; split; intros H; inversion H; reflexivity.
Qed.

(** Splits a hypothesis [x <- m ;; k = Ok r] as long as it can. *)
Ltac bind_inv H :=
  repeat
    (let a := fresh "v" in
     let E := fresh "E" in
     apply bind_ok_inv in H; destruct H as [a [E H]]).

Lemma mapM_length {A B : Type} (f : A -> result B) (l : list A) (bs : list B) :
  mapM f l = Ok bs -> List.length bs = List.length l.
Proof.
  revert bs; induction l as [ | a l IH]; simpl; intros bs H.
  - inversion H; reflexivity.
  - bind_inv H. inversion H; subst; simpl.
    f_equal; apply IH; assumption.
Qed.

(** When [mapM f l] succeeds, [f] succeeds on every element. *)
Lemma mapM_ok_all {A B : Type} (f : A -> result B) (l : list A) (bs : list B) :
  mapM f l = Ok bs -> Forall (fun a => exists b, f a = Ok b) l.
Proof.
  revert bs; induction l as [ | a l IH]; simpl; intros bs H.
  - constructor.
  - bind_inv H. constructor; [ exists v; assumption | eapply IH; eassumption ].
Qed.

(** ** Indexing and slicing *)

Lemma len_nil {A : Type} : len (@nil A) = 0.
Proof. reflexivity. Qed.

Lemma len_cons {A : Type} (a : A) (l : list A) : len (a :: l) = len l + 1.
Proof. unfold len; simpl List.length; lia. Qed.

Lemma len_app {A : Type} (l1 l2 : list A) : len (l1 ++ l2) = len l1 + len l2.
Proof. unfold len; rewrite length_app; lia. Qed.

Lemma len_nonneg {A : Type} (l : list A) : 0 <= len l.
Proof. unfold len; lia. Qed.

(** A successful read at a non-negative index is inside the list. *)
Lemma py_index_ok_nonneg {A : Type} (l : list A) (i : Z) (a : A) :
  0 <= i -> py_index l i = Ok a ->
  i < len l /\ nth_error l (Z.to_nat i) = Some a.
Proof.
  intros Hi H. unfold py_index in H.
  destruct (i <? 0) eqn:Hneg; [ apply Z.ltb_lt in Hneg; lia | ].
  rewrite Hneg in H.
  destruct (nth_error l (Z.to_nat i)) as [b | ] eqn:Hn; [ | discriminate H ].
  inversion H; subst b. split; [ | reflexivity ].
  assert (Hlt : (Z.to_nat i < List.length l)%nat)
    by (apply nth_error_Some; rewrite Hn; discriminate).
  unfold len; lia.
Qed.

Lemma py_index_app_at {A : Type} (pre post : list A) (i j : Z) :
  len pre = i -> 0 <= j -> py_index (pre ++ post) (i + j) = py_index post j.
Proof.
  intros Hi Hj. unfold py_index.
  assert (Hi0 : 0 <= i) by (subst i; apply len_nonneg).
  destruct (i + j <? 0) eqn:H1; [ apply Z.ltb_lt in H1; lia | ].
  destruct (j <? 0) eqn:H2; [ apply Z.ltb_lt in H2; lia | ].
  rewrite H1, H2.
  replace (Z.to_nat (i + j)) with (List.length pre + Z.to_nat j)%nat
    by (unfold len in Hi; lia).
  rewrite nth_error_app2 by lia.
  replace (List.length pre + Z.to_nat j - List.length pre)%nat
    with (Z.to_nat j) by lia.
  reflexivity.
Qed.

(** [l[-k]] of a list that ends with [post], [k <= len post]. *)
Lemma py_index_from_end {A : Type} (pre post : list A) (k : Z) :
  0 < k <= len post ->
  py_index (pre ++ post) (- k) = py_index post (len post - k).
Proof.
  intros Hk. unfold py_index.
  assert (H1 : (- k <? 0) = true) by (apply Z.ltb_lt; lia).
  assert (H2 : (len post - k <? 0) = false) by (apply Z.ltb_ge; lia).
  assert (H3 : (- k + (len pre + len post) <? 0) = false)
    by (apply Z.ltb_ge; pose proof (len_nonneg pre); lia).
  rewrite H1, H2, len_app, H3. cbv iota zeta. rewrite H2.
  replace (Z.to_nat (- k + (len pre + len post)))
    with (List.length pre + Z.to_nat (len post - k))%nat
    by (unfold len in *; lia).
  rewrite nth_error_app2 by lia.
  replace (List.length pre + Z.to_nat (len post - k) - List.length pre)%nat
    with (Z.to_nat (len post - k)) by lia.
  reflexivity.
Qed.

Lemma py_clamp_inside (n i : Z) : 0 <= i <= n -> py_clamp n i = i.
Proof.
  intros H. unfold py_clamp.
  destruct (i <? 0) eqn:H1; [ apply Z.ltb_lt in H1; lia | ].
  destruct (n <=? i) eqn:H2; [ apply Z.leb_le in H2; lia | reflexivity ].
Qed.

(** A slice inside the list has the length its bounds give. *)
Lemma py_slice_length {A : Type} (l : list A) (a b : Z) :
  0 <= a <= b -> b <= len l -> len (py_slice l a b) = b - a.
Proof.
  intros Hab Hb. unfold py_slice.
  rewrite !py_clamp_inside by lia.
  unfold len in *. rewrite length_firstn, length_skipn. lia.
Qed.

(** The slice that cuts the middle part out. *)
Lemma py_slice_app {A : Type} (pre mid post : list A) (a b : Z) :
  len pre = a -> a + len mid = b ->
  py_slice (pre ++ mid ++ post) a b = mid.
Proof.
  intros Ha Hb. unfold py_slice.
  pose proof (len_nonneg pre). pose proof (len_nonneg mid).
  pose proof (len_nonneg post).
  rewrite !py_clamp_inside by (rewrite !len_app; lia).
  replace (Z.to_nat a) with (List.length pre) by (unfold len in Ha; lia).
  replace (Z.to_nat (b - a)) with (List.length mid) by (unfold len in *; lia).
  rewrite skipn_app, skipn_all, Nat.sub_diag. simpl.
  rewrite firstn_app, firstn_all, Nat.sub_diag. simpl.
  apply app_nil_r.
Qed.

(** ** The decoders *)

Lemma int_at_ok_nonneg (tok : list string) (i v : Z) :
  0 <= i -> int_at tok i = Ok v -> i < len tok.
Proof.
  intros Hi H. unfold int_at in H. bind_inv H.
  eapply py_index_ok_nonneg; eassumption.
Qed.

Lemma float_at_ok_nonneg (tok : list string) (i : Z) (v : float) :
  0 <= i -> float_at tok i = Ok v -> i < len tok.
Proof.
  intros Hi H. unfold float_at in H. bind_inv H.
  eapply py_index_ok_nonneg; eassumption.
Qed.

(** The cursor values of the fixed prefix, as numerals. *)
Ltac norm_idx :=
  change (0 + 1) with 1 in *; change (1 + 1) with 2 in *;
  change (2 + 1) with 3 in *; change (3 + 1) with 4 in *;
  change (4 + 1) with 5 in *; change (5 + 1) with 6 in *;
  change (6 + 1) with 7 in *; change (7 + 1) with 8 in *;
  change (8 + 1) with 9 in *.

(** What a successful prefix of [_parse_robotlaser] has read. *)
Lemma robotlaser_prefix_ok (tok : list string) (h : robotlaser_header) :
  robotlaser_prefix tok = Ok h ->
  float_at tok 2 = Ok (h_start_angle h) /\
  float_at tok 4 = Ok (h_ang_res h) /\
  float_at tok 5 = Ok (h_max_range h) /\
  int_at tok 8 = Ok (h_n h) /\
  mapM py_float (py_slice tok 9 (9 + h_n h)) = Ok (h_ranges h) /\
  h_idx h = 9 + h_n h.
Proof.
  unfold robotlaser_prefix; cbv zeta; norm_idx. intros H.
  bind_inv H. inversion H; subst h; simpl.
  repeat split; assumption.
Qed.

Lemma skip_tooclose_classify (tok : list string) (idx n : Z) :
  skip_tooclose tok idx n
  = remission_cursor idx n (classify (len tok - idx) n).
Proof.
  unfold skip_tooclose, classify, min_tail_A; cbv zeta.
  destruct (len tok - idx >? 15 + n); reflexivity.
Qed.

(** What a successful tail of [_parse_robotlaser] has read, and where. *)
Lemma robotlaser_tail_ok self tok h idx rec :
  robotlaser_tail self tok h idx = Ok rec ->
  exists num_rem,
    int_at tok idx = Ok num_rem /\
    (exists p, pose_at tok (idx + 1 + num_rem) = Ok p /\ laser_pose rec = Some p) /\
    (exists p, pose_at tok (idx + 1 + num_rem + 3) = Ok p /\ robot_pose rec = Some p) /\
    (exists v, float_at tok (idx + 1 + num_rem + 3 + 3) = Ok v /\ tv rec = Some v) /\
    (exists v, float_at tok (idx + 1 + num_rem + 3 + 3 + 1) = Ok v /\ rv rec = Some v) /\
    float_at tok (idx + 1 + num_rem + 3 + 3 + 1 + 1 + 3) = Ok (stamp rec) /\
    frame_id rec = _scan_frame_id self /\
    angle_min rec = h_start_angle h /\
    angle_increment rec = h_ang_res h /\
    range_min rec = f0 /\
    range_max rec = h_max_range h /\
    ranges rec = h_ranges h.
Proof.
  unfold robotlaser_tail; cbv zeta. intros H.
  bind_inv H. inversion H; subst rec; simpl.
  exists v. split; [ assumption | ].
  repeat split; eauto.
Qed.

(** What a successful [_parse_flaser] has read. *)
Lemma flaser_body_ok self tok rec :
  flaser_body self tok = Ok rec ->
  exists n px py pth,
    int_at tok 1 = Ok n /\
    mapM py_float (py_slice tok 2 (2 + n)) = Ok (ranges rec) /\
    float_at tok (2 + n) = Ok px /\
    float_at tok (2 + n + 1) = Ok py /\
    float_at tok (2 + n + 2) = Ok pth /\
    robot_pose rec = Some (mkPose2D px py pth) /\
    float_at tok (-3) = Ok (stamp rec) /\
    py_truediv_int (fsub (fdiv math_pi f2) (fdiv (fopp math_pi) f2))
      (Z.max (n - 1) 1) = Ok (angle_increment rec) /\
    angle_min rec = fdiv (fopp math_pi) f2 /\
    range_min rec = f0 /\
    range_max rec = max_or_zero (ranges rec) /\
    laser_pose rec = None /\ tv rec = None /\ rv rec = None /\
    frame_id rec = _scan_frame_id self.
Proof.
  unfold flaser_body; cbv zeta; norm_idx. intros H.
  bind_inv H. inversion H; subst rec; simpl.
  exists v, v1, v2, v3. repeat split; assumption.
Qed.

(** ** Layout resolution *)

(** C1. On every ROBOTLASER line whose fixed prefix and range run decode,
    the cursor after the range run is [9 + n] for the beam count [n] read at
    token 8; with [remaining = len tok - cursor], the line is Layout B when
    [remaining > 15 + n] and Layout A otherwise; the decoder continues with
    the common tail from the cursor advanced by exactly [n] in Layout B and
    from the cursor itself in Layout A, and a record is produced only when
    the remission count is the integer read at that position, the laser
    pose following it after that many tokens. *)
Theorem layout_resolution (self : CarmenLogReader) (line : string)
    (h : robotlaser_header) :
  robotlaser_prefix (tokens line) = Ok h ->
  let tok := tokens line in
  let n := h_n h in
  let remaining := len tok - h_idx h in
  let cursor := remission_cursor (h_idx h) n (classify remaining n) in
  int_at tok 8 = Ok n /\
  h_idx h = 9 + n /\
  (remaining > 15 + n -> cursor = h_idx h + n) /\
  (remaining <= 15 + n -> cursor = h_idx h) /\
  _parse_robotlaser self line = try_except (robotlaser_tail self tok h cursor) /\
  (forall rec, _parse_robotlaser self line = Some rec ->
     exists num_rem p,
       int_at tok cursor = Ok num_rem /\
       pose_at tok (cursor + 1 + num_rem) = Ok p /\
       laser_pose rec = Some p).
Proof.
  intros Hp tok n remaining cursor.
  destruct (robotlaser_prefix_ok _ _ Hp) as (_ & _ & _ & Hn & _ & Hidx).
  assert (Hparse : _parse_robotlaser self line
                   = try_except (robotlaser_tail self tok h cursor)).
  { unfold _parse_robotlaser, robotlaser_body; cbv zeta.
    subst tok. rewrite Hp; cbn [bind].
    rewrite skip_tooclose_classify. reflexivity. }
  split; [ exact Hn | ]. split; [ exact Hidx | ].
  split; [ | split; [ | split; [ exact Hparse | ] ] ].
  - intros Hgt. subst cursor. unfold classify.
    pose proof (Zgt_cases remaining (15 + n)) as Hc.
    destruct (remaining >? 15 + n); [ reflexivity | lia ].
  - intros Hle. subst cursor. unfold classify.
    pose proof (Zgt_cases remaining (15 + n)) as Hc.
    destruct (remaining >? 15 + n); [ lia | reflexivity ].
  - intros rec Hrec. rewrite Hparse in Hrec.
    apply try_except_some in Hrec.
    destruct (robotlaser_tail_ok _ _ _ _ _ Hrec)
      as (num_rem & Hnr & (p & Hp1 & Hp2) & _).
    exists num_rem, p. auto.
Qed.

Lemma layout_resolution_witness :
  exists h,
    robotlaser_prefix (tokens robotlaser_A_line) = Ok h /\
    _parse_robotlaser example_reader robotlaser_A_line
    = try_except (robotlaser_tail example_reader (tokens robotlaser_A_line) h
                    (remission_cursor (h_idx h) (h_n h)
                       (classify (len (tokens robotlaser_A_line) - h_idx h)
                          (h_n h)))).
Proof.
  eexists. split.
  - vm_compute. reflexivity.
  - refine (proj1 (proj2 (proj2 (proj2 (proj2
      (layout_resolution example_reader robotlaser_A_line _ _)))))).
    vm_compute. reflexivity.
Defined.

(** ** The configuration flag *)

(** C9. For both settings of [prefer_message_timestamp], with the path and
    the frame label fixed, every line decodes to the same result, record or
    none, through each decoder and through the dispatch, and every stream
    yields the same records. *)
Theorem prefer_message_timestamp_no_effect
    (path frame : string) (b1 b2 : bool) :
  let r1 := mkCarmenLogReader path frame b1 in
  let r2 := mkCarmenLogReader path frame b2 in
  (forall line, _parse_robotlaser r1 line = _parse_robotlaser r2 line) /\
  (forall line, _parse_flaser r1 line = _parse_flaser r2 line) /\
  (forall line, _parse_rlaser r1 line = _parse_rlaser r2 line) /\
  (forall line, dispatch r1 line = dispatch r2 line) /\
  (forall lines, iter_scans r1 lines = iter_scans r2 lines).
Proof.
  intros r1 r2.
  assert (Hrobot : forall line,
             _parse_robotlaser r1 line = _parse_robotlaser r2 line).
  { intros line. unfold _parse_robotlaser, robotlaser_body; cbv zeta.
    destruct (robotlaser_prefix (tokens line)); reflexivity. }
  assert (Hflaser : forall line, _parse_flaser r1 line = _parse_flaser r2 line)
    by reflexivity.
  assert (Hdisp : forall line, dispatch r1 line = dispatch r2 line).
  { intros line. unfold dispatch, _parse_rlaser.
    rewrite Hrobot, Hflaser. reflexivity. }
  repeat split; auto.
  induction lines as [ | line rest IH]; simpl; [ reflexivity | ].
  rewrite Hdisp, IH. reflexivity.
Qed.

(** ** The legacy-format example *)

(** C5, as the code has it. The example line decodes to a record with
    ranges [1.0, 2.0, 3.0], robot pose (0.5, 0.5, 0.0), stamp 1000.0,
    [angle_min] equal to minus pi over 2, and [angle_increment] equal to
    pi over 2: the half turn divided by [max(3 - 1, 1) = 2]. *)
Theorem flaser_example_decodes (self : CarmenLogReader) :
  exists rec,
    _parse_flaser self flaser_example_line = Some rec /\
    ranges rec = [Z_to_float 1; Z_to_float 2; Z_to_float 3] /\
    robot_pose rec = Some (mkPose2D float_half float_half f0) /\
    stamp rec = Z_to_float 1000 /\
    angle_min rec = minus_pi_over_2 /\
    angle_increment rec = pi_over_2.
Proof.
  eexists. split; [ vm_compute; reflexivity | ].
  vm_compute. repeat split; reflexivity.
Qed.

(** The example as the specification states it, with an increment of pi
    over 4, does not hold of the decoded record. *)
Lemma flaser_example_increment_not_pi_over_4 :
  ~ (exists rec,
       _parse_flaser example_reader flaser_example_line = Some rec /\
       ranges rec = [Z_to_float 1; Z_to_float 2; Z_to_float 3] /\
       robot_pose rec = Some (mkPose2D float_half float_half f0) /\
       stamp rec = Z_to_float 1000 /\
       angle_min rec = minus_pi_over_2 /\
       angle_increment rec = pi_over_4).
Proof.
  intros (rec & Hrec & _ & _ & _ & _ & Hinc).
  vm_compute in Hrec. inversion Hrec; subst rec; clear Hrec.
  vm_compute in Hinc. discriminate Hinc.
Qed.

(** ** A legacy line without its trailer *)

(** C10. Some FLASER line holds a valid beam count [n], [n] parsable range
    tokens and three parsable tokens after them, and nothing else; the
    decoder produces a record for it, whose stamp is the float of the
    third-from-last token of the line, a token at an index below [2 + n + 3],
    which the decoder has consumed from the front: here the pose's [x]. *)
Theorem flaser_stamp_overlaps_consumed_fields :
  exists line ntok rtoks xt yt tht n rec,
    startswith line "FLASER " = true /\
    tokens line = "FLASER" :: ntok :: rtoks ++ [xt; yt; tht] /\
    py_int ntok = Ok n /\ n = len rtoks /\
    (exists rs, mapM py_float rtoks = Ok rs) /\
    _parse_flaser example_reader line = Some rec /\
    py_float xt = Ok (stamp rec) /\
    py_index (tokens line) (-3) = Ok xt /\
    py_index (tokens line) (len (tokens line) - 3) = Ok xt /\
    len (tokens line) - 3 < 2 + n + 3 /\
    (exists px py pth, robot_pose rec = Some (mkPose2D px py pth)
                       /\ px = stamp rec).
Proof.
  exists flaser_no_trailer_line, "1", ["1.0"], "2.0", "3.0", "4.0", 1.
  eexists.
  split; [ reflexivity | ].
  split; [ reflexivity | ].
  split; [ reflexivity | ].
  split; [ reflexivity | ].
  split; [ eexists; vm_compute; reflexivity | ].
  split; [ vm_compute; reflexivity | ].
  vm_compute. repeat split; try discriminate.
  do 3 eexists. split; reflexivity.
Qed.

(** ** The length of the range run *)

Lemma skip_tooclose_ge (tok : list string) (idx n : Z) :
  0 <= n -> idx <= skip_tooclose tok idx n.
Proof.
  intros Hn. unfold skip_tooclose; cbv zeta.
  destruct (len tok - idx >? min_tail_A + n); lia.
Qed.

(** A record of [_parse_robotlaser]: the prefix and the tail it ran. *)
Lemma parse_robotlaser_some self line rec :
  _parse_robotlaser self line = Some rec ->
  exists h,
    robotlaser_prefix (tokens line) = Ok h /\
    robotlaser_tail self (tokens line) h
      (skip_tooclose (tokens line) (h_idx h) (h_n h)) = Ok rec.
Proof.
  unfold _parse_robotlaser; cbv zeta. intros H.
  apply try_except_some in H. unfold robotlaser_body in H.
  apply bind_ok_inv in H. exact H.
Qed.

(** With a non-negative beam count, a record of [_parse_robotlaser] has
    the whole range run inside the line. *)
Lemma robotlaser_run_inside self line rec n :
  _parse_robotlaser self line = Some rec ->
  int_at (tokens line) 8 = Ok n -> 0 <= n ->
  9 + n < len (tokens line) /\
  mapM py_float (py_slice (tokens line) 9 (9 + n)) = Ok (ranges rec).
Proof.
  intros Hrec Hn Hn0.
  destruct (parse_robotlaser_some _ _ _ Hrec) as (h & Hp & Ht).
  destruct (robotlaser_prefix_ok _ _ Hp) as (_ & _ & _ & Hn' & Hr & Hidx).
  rewrite Hn in Hn'. inversion Hn' as [Hnh].
  destruct (robotlaser_tail_ok _ _ _ _ _ Ht) as (num_rem & Hnr & Hrest).
  assert (Hrs : ranges rec = h_ranges h) by (apply Hrest).
  pose proof (skip_tooclose_ge (tokens line) (h_idx h) (h_n h)) as Hge.
  rewrite <- Hnh in *.
  apply int_at_ok_nonneg in Hnr; [ | lia ].
  split; [ lia | ]. rewrite Hrs. exact Hr.
Qed.

(** With a non-negative beam count, a record of [_parse_flaser] has the
    whole range run inside the line. *)
Lemma flaser_run_inside self line rec n :
  _parse_flaser self line = Some rec ->
  int_at (tokens line) 1 = Ok n -> 0 <= n ->
  2 + n < len (tokens line) /\
  mapM py_float (py_slice (tokens line) 2 (2 + n)) = Ok (ranges rec).
Proof.
  unfold _parse_flaser; cbv zeta. intros Hrec Hn Hn0.
  apply try_except_some in Hrec.
  destruct (flaser_body_ok _ _ _ Hrec)
    as (n' & px & py & pth & Hn' & Hr & Hx & _).
  rewrite Hn in Hn'. inversion Hn'; subst n'.
  apply float_at_ok_nonneg in Hx; [ | lia ].
  split; assumption.
Qed.

(** C2, as the code has it. For every line from which either decoder
    produces a record, when the beam count [n] declared on that line is not
    negative, the record's ranges have length [n]. *)
Theorem ranges_length_is_beam_count
    (self : CarmenLogReader) (line : string) (rec : LaserScan2DRecord) (n : Z) :
  (_parse_robotlaser self line = Some rec /\ int_at (tokens line) 8 = Ok n)
  \/ (_parse_flaser self line = Some rec /\ int_at (tokens line) 1 = Ok n) ->
  0 <= n ->
  len (ranges rec) = n.
Proof.
  intros [[Hrec Hn] | [Hrec Hn]] Hn0.
  - destruct (robotlaser_run_inside _ _ _ _ Hrec Hn Hn0) as [Hlen Hr].
    apply mapM_length in Hr. unfold len at 1. rewrite Hr.
    fold (len (py_slice (tokens line) 9 (9 + n))).
    rewrite py_slice_length; lia.
  - destruct (flaser_run_inside _ _ _ _ Hrec Hn Hn0) as [Hlen Hr].
    apply mapM_length in Hr. unfold len at 1. rewrite Hr.
    fold (len (py_slice (tokens line) 2 (2 + n))).
    rewrite py_slice_length; lia.
Qed.

Lemma ranges_length_is_beam_count_witness :
  exists rec,
    _parse_flaser example_reader flaser_example_line = Some rec /\
    len (ranges rec) = 3.
Proof.
  eexists. split.
  - vm_compute. reflexivity.
  - apply (ranges_length_is_beam_count example_reader flaser_example_line _ 3).
    + right. split; vm_compute; reflexivity.
    + lia.
Defined.

(** A record whose ranges do not have the declared length: the beam count
    is negative, the slice is empty and the cursor steps back onto the
    count itself, which is then read as the pose's [x]. *)
Lemma negative_beam_count_record :
  exists rec,
    _parse_flaser example_reader flaser_negative_count_line = Some rec /\
    int_at (tokens flaser_negative_count_line) 1 = Ok (-1) /\
    len (ranges rec) <> -1.
Proof.
  eexists. split; [ vm_compute; reflexivity | ].
  split; [ vm_compute; reflexivity | ].
  vm_compute. discriminate.
Qed.

(** ** Lines with too few readings *)

Lemma mapM_float_numerals (l : list string) (rs : list float) :
  mapM py_float l = Ok rs -> filter is_numeral l = l.
Proof.
  intros H. apply mapM_ok_all in H.
  induction H as [ | t l [f Hf] _ IH]; simpl; [ reflexivity | ].
  unfold is_numeral at 1. rewrite Hf. f_equal. exact IH.
Qed.

Lemma py_slice_inside {A : Type} (l : list A) (a b : Z) :
  0 <= a <= b -> b <= len l ->
  py_slice l a b = firstn (Z.to_nat (b - a)) (skipn (Z.to_nat a) l).
Proof.
  intros Hab Hb. unfold py_slice. rewrite !py_clamp_inside by lia. reflexivity.
Qed.

(** A range run of [n] tokens right after position [k] that [float]
    accepts leaves at least [n] numerals after that position. *)
Lemma numerals_after_run (tok : list string) (k : nat) (n : Z) (rs : list float) :
  0 <= n -> Z.of_nat (S k) + n <= len tok ->
  mapM py_float (py_slice tok (Z.of_nat (S k)) (Z.of_nat (S k) + n)) = Ok rs ->
  n <= numerals_after tok k.
Proof.
  intros Hn Hlen Hr.
  rewrite py_slice_inside in Hr by lia.
  replace (Z.to_nat (Z.of_nat (S k))) with (S k) in Hr by lia.
  replace (Z.of_nat (S k) + n - Z.of_nat (S k)) with n in Hr by lia.
  pose proof (mapM_float_numerals _ _ Hr) as Hf.
  unfold numerals_after.
  rewrite <- (firstn_skipn (Z.to_nat n) (skipn (S k) tok)).
  rewrite filter_app, Hf, len_app.
  pose proof (len_nonneg
    (filter is_numeral (skipn (Z.to_nat n) (skipn (S k) tok)))).
  assert (len (firstn (Z.to_nat n) (skipn (S k) tok)) = n).
  { unfold len in *. rewrite length_firstn, length_skipn. lia. }
  lia.
Qed.

Lemma prefix_cons (a b : ascii) (s1 s2 : string) :
  prefix (String a s1) (String b s2) = Ascii.eqb a b && prefix s1 s2.
Proof.
  cbn [prefix]. destruct (ascii_dec a b) as [ -> | Hne ].
  - rewrite Ascii.eqb_refl. reflexivity.
  - apply Ascii.eqb_neq in Hne. rewrite Hne. reflexivity.
Qed.

Lemma startswith_flaser_not_robotlaser (line : string) :
  startswith line "FLASER " = true -> startswith line "ROBOTLASER" = false.
Proof.
  unfold startswith. destruct line as [ | c line];
    [ intros H; discriminate H | ].
  rewrite !prefix_cons.
  destruct (Ascii.eqb "F" c) eqn:Hc; [ | intros H; discriminate H ].
  apply Ascii.eqb_eq in Hc. subst c. reflexivity.
Qed.

Lemma startswith_rlaser_not_robotlaser (line : string) :
  startswith line "RLASER " = true -> startswith line "ROBOTLASER" = false.
Proof.
  unfold startswith. destruct line as [ | c [ | c' line]];
    try (intros H; discriminate H).
  - rewrite !prefix_cons. destruct (Ascii.eqb "R" c); intros H; discriminate H.
  - rewrite !prefix_cons.
    destruct (Ascii.eqb "R" c); [ | intros H; discriminate H ].
    destruct (Ascii.eqb "L" c') eqn:Hc; [ | intros H; discriminate H ].
    apply Ascii.eqb_eq in Hc. subst c'. reflexivity.
Qed.

(** The dispatch of a legacy line goes to [_parse_flaser]. *)
Lemma dispatch_legacy self line :
  startswith line "FLASER " = true \/ startswith line "RLASER " = true ->
  dispatch self line = _parse_flaser self line.
Proof.
  intros [H | H]; unfold dispatch, _parse_rlaser.
  - rewrite (startswith_flaser_not_robotlaser _ H), H. reflexivity.
  - rewrite (startswith_rlaser_not_robotlaser _ H), H.
    destruct (startswith line "FLASER "); reflexivity.
Qed.

Lemma dispatch_robotlaser self line :
  startswith line "ROBOTLASER" = true ->
  dispatch self line = _parse_robotlaser self line.
Proof. intros H. unfold dispatch. rewrite H. reflexivity. Qed.

(** C8. A line with a recognized tag that declares a beam count of 5 and
    has fewer than 5 numeral tokens after the beam-count field produces no
    record. *)
Theorem five_beams_too_few_numerals (self : CarmenLogReader) (line : string) :
  (startswith line "ROBOTLASER" = true
   /\ int_at (tokens line) 8 = Ok 5 /\ numerals_after (tokens line) 8 < 5)
  \/ ((startswith line "FLASER " = true \/ startswith line "RLASER " = true)
      /\ int_at (tokens line) 1 = Ok 5 /\ numerals_after (tokens line) 1 < 5) ->
  dispatch self line = None /\ iter_scans self [line] = [].
Proof.
  intros H.
  assert (Hd : dispatch self line = None).
  { destruct H as [(Htag & Hn & Hfew) | (Htag & Hn & Hfew)].
    - rewrite (dispatch_robotlaser _ _ Htag).
      destruct (_parse_robotlaser self line) as [rec | ] eqn:Hrec;
        [ exfalso | reflexivity ].
      destruct (robotlaser_run_inside _ _ _ _ Hrec Hn ltac:(lia)) as [Hlen Hr].
      pose proof (numerals_after_run (tokens line) 8 5 _
                    ltac:(lia) ltac:(lia) Hr).
      lia.
    - rewrite (dispatch_legacy _ _ Htag).
      destruct (_parse_flaser self line) as [rec | ] eqn:Hrec;
        [ exfalso | reflexivity ].
      destruct (flaser_run_inside _ _ _ _ Hrec Hn ltac:(lia)) as [Hlen Hr].
      pose proof (numerals_after_run (tokens line) 1 5 _
                    ltac:(lia) ltac:(lia) Hr).
      lia. }
  split; [ exact Hd | ].
  simpl. rewrite Hd. destruct (skipped line); reflexivity.
Qed.

Lemma five_beams_too_few_numerals_witness :
  dispatch example_reader flaser_short_line = None
  /\ iter_scans example_reader [flaser_short_line] = [].
Proof.
  apply (five_beams_too_few_numerals example_reader flaser_short_line).
  right. split; [ left; reflexivity | ].
  split; [ vm_compute; reflexivity | vm_compute; reflexivity ].
Defined.

(** ** Malformed lines in a stream *)




Lemma iter_scans_length self lines :
  (List.length (iter_scans self lines) <= List.length lines)%nat.
Proof.
  induction lines as [ | line rest IH]; simpl; [ lia | ].
  destruct (skipped line); [ lia | ].
  destruct (dispatch self line); simpl; lia.
Qed.

(** Every record of the stream is the decoding of one of its lines. *)
Lemma iter_scans_origin self lines rec :
  In rec (iter_scans self lines) ->
  exists line, In line lines /\ dispatch self line = Some rec.
Proof.
  induction lines as [ | line rest IH]; simpl; [ intros [] | ].
  intros H.
  assert (Hrest : In rec (iter_scans self rest) ->
                  exists l, (line = l \/ In l rest) /\ dispatch self l = Some rec).
  { intros Hin. destruct (IH Hin) as (l & Hl & Hd). exists l. auto. }
  destruct (skipped line); [ auto | ].
  destruct (dispatch self line) as [r | ] eqn:Hd; [ | auto ].
  destruct H as [ -> | H ]; [ exists line; auto | auto ].
Qed.



(** ** Well-formed robot-laser lines *)

Lemma float_at_split (tok pre post : list string) (j k : Z) (t : string)
    (v : float) :
  tok = pre ++ post -> j = len pre + k -> 0 <= k ->
  py_index post k = Ok t -> py_float t = Ok v ->
  float_at tok j = Ok v.
Proof.
  intros -> -> Hk Hi Hf. unfold float_at.
  rewrite (py_index_app_at pre post (len pre) k eq_refl Hk), Hi. exact Hf.
Qed.

Lemma int_at_split (tok pre post : list string) (j k : Z) (t : string) (v : Z) :
  tok = pre ++ post -> j = len pre + k -> 0 <= k ->
  py_index post k = Ok t -> py_int t = Ok v ->
  int_at tok j = Ok v.
Proof.
  intros -> -> Hk Hi Hf. unfold int_at.
  rewrite (py_index_app_at pre post (len pre) k eq_refl Hk), Hi. exact Hf.
Qed.

Lemma pose_at_split (tok pre post : list string) (j k : Z) (a b c : string)
    (p : Pose2D) :
  tok = pre ++ post -> j = len pre + k -> 0 <= k ->
  py_index post k = Ok a -> py_index post (k + 1) = Ok b ->
  py_index post (k + 2) = Ok c ->
  py_float a = Ok (x p) -> py_float b = Ok (y p) -> py_float c = Ok (yaw p) ->
  pose_at tok j = Ok p.
Proof.
  intros Ht Hj Hk Ha Hb Hc Hfa Hfb Hfc. unfold pose_at.
  rewrite (float_at_split tok pre post j k a _ Ht Hj Hk Ha Hfa).
  rewrite (float_at_split tok pre post (j + 1) (k + 1) b _ Ht
             ltac:(lia) ltac:(lia) Hb Hfb).
  rewrite (float_at_split tok pre post (j + 2) (k + 2) c _ Ht
             ltac:(lia) ltac:(lia) Hc Hfc).
  destruct p; reflexivity.
Qed.

(** The prefix of [_parse_robotlaser] on a line that starts with well-formed
    fixed fields and a well-formed range run. *)
Lemma robotlaser_prefix_run (f : robotlaser_fields) (v : robotlaser_values)
    (rest : list string) :
  well_formed f v ->
  robotlaser_prefix (head_tokens f ++ t_ranges f ++ rest)
  = Ok (mkHeader (v_start_angle v) (v_ang_res v) (v_max_range v)
          (len (t_ranges f)) (v_ranges v) (9 + len (t_ranges f))).
Proof.
  intros W.
  destruct (wf_laser_type f v W) as [k1 Hk1].
  destruct (wf_fov f v W) as [a1 Ha1].
  destruct (wf_accuracy f v W) as [a2 Ha2].
  destruct (wf_remission_mode f v W) as [k2 Hk2].
  unfold robotlaser_prefix; cbv zeta; norm_idx.
  set (tok := head_tokens f ++ t_ranges f ++ rest).
  assert (H1 : int_at tok 1 = Ok k1)
    by (unfold int_at; change (py_index tok 1) with (Ok (t_laser_type f));
        exact Hk1).
  assert (H2 : float_at tok 2 = Ok (v_start_angle v))
    by (unfold float_at; change (py_index tok 2) with (Ok (t_start_angle f));
        exact (wf_start_angle f v W)).
  assert (H3 : float_at tok 3 = Ok a1)
    by (unfold float_at; change (py_index tok 3) with (Ok (t_fov f));
        exact Ha1).
  assert (H4 : float_at tok 4 = Ok (v_ang_res v))
    by (unfold float_at; change (py_index tok 4) with (Ok (t_ang_res f));
        exact (wf_ang_res f v W)).
  assert (H5 : float_at tok 5 = Ok (v_max_range v))
    by (unfold float_at; change (py_index tok 5) with (Ok (t_max_range f));
        exact (wf_max_range f v W)).
  assert (H6 : float_at tok 6 = Ok a2)
    by (unfold float_at; change (py_index tok 6) with (Ok (t_accuracy f));
        exact Ha2).
  assert (H7 : int_at tok 7 = Ok k2)
    by (unfold int_at; change (py_index tok 7) with (Ok (t_remission_mode f));
        exact Hk2).
  assert (H8 : int_at tok 8 = Ok (len (t_ranges f)))
    by (unfold int_at; change (py_index tok 8) with (Ok (t_n f));
        exact (wf_n f v W)).
  rewrite H1, H2, H3, H4, H5, H6, H7, H8; cbn [bind].
  subst tok.
  rewrite (py_slice_app (head_tokens f) (t_ranges f) rest 9
             (9 + len (t_ranges f)) eq_refl eq_refl).
  rewrite (wf_ranges f v W). reflexivity.
Qed.

(** The tail of [_parse_robotlaser] from the remission count of a
    well-formed line. *)
Lemma robotlaser_tail_run (self : CarmenLogReader) (f : robotlaser_fields)
    (v : robotlaser_values) (pre : list string) (h : robotlaser_header) :
  well_formed f v ->
  robotlaser_tail self
    (pre ++ (t_num_rem f :: t_remissions f) ++ tail_tokens f) h (len pre)
  = Ok {| stamp := v_ipc_timestamp v;
          frame_id := _scan_frame_id self;
          angle_min := h_start_angle h;
          angle_increment := h_ang_res h;
          range_min := f0;
          range_max := h_max_range h;
          ranges := h_ranges h;
          robot_pose := Some (v_robot_pose v);
          laser_pose := Some (v_laser_pose v);
          tv := Some (v_tv v);
          rv := Some (v_rv v) |}.
Proof.
  intros W.
  set (tok := pre ++ (t_num_rem f :: t_remissions f) ++ tail_tokens f).
  set (m := len (t_remissions f)).
  assert (Ha : tok = pre ++ ((t_num_rem f :: t_remissions f) ++ tail_tokens f))
    by reflexivity.
  assert (Hb : tok = (pre ++ t_num_rem f :: t_remissions f) ++ tail_tokens f)
    by (subst tok; rewrite app_assoc; reflexivity).
  assert (Hlen : len (pre ++ t_num_rem f :: t_remissions f) = len pre + 1 + m)
    by (rewrite len_app, len_cons; subst m; lia).
  unfold robotlaser_tail; cbv zeta.
  rewrite (int_at_split tok _ _ (len pre) 0 _ _ Ha ltac:(lia) ltac:(lia)
             eq_refl (wf_num_rem f v W)); cbn [bind]. fold m.
  rewrite (pose_at_split tok _ _ (len pre + 1 + m) 0 _ _ _ (v_laser_pose v) Hb
             ltac:(lia) ltac:(lia) eq_refl eq_refl eq_refl
             (wf_laser_x f v W) (wf_laser_y f v W) (wf_laser_yaw f v W));
    cbn [bind].
  rewrite (pose_at_split tok _ _ (len pre + 1 + m + 3) 3 _ _ _ (v_robot_pose v)
             Hb ltac:(lia) ltac:(lia) eq_refl eq_refl eq_refl
             (wf_robot_x f v W) (wf_robot_y f v W) (wf_robot_yaw f v W));
    cbn [bind].
  rewrite (float_at_split tok _ _ (len pre + 1 + m + 3 + 3) 6 _ _ Hb
             ltac:(lia) ltac:(lia) eq_refl (wf_tv f v W)); cbn [bind].
  rewrite (float_at_split tok _ _ (len pre + 1 + m + 3 + 3 + 1) 7 _ _ Hb
             ltac:(lia) ltac:(lia) eq_refl (wf_rv f v W)); cbn [bind].
  rewrite (float_at_split tok _ _ (len pre + 1 + m + 3 + 3 + 1 + 1 + 3) 11 _ _
             Hb ltac:(lia) ltac:(lia) eq_refl (wf_ipc_timestamp f v W));
    cbn [bind].
  reflexivity.
Qed.

Lemma robotlaser_tokens_len (f : robotlaser_fields) (flags : list string) :
  len (robotlaser_tokens f flags)
  = 9 + len (t_ranges f) + len flags + 1 + len (t_remissions f) + 14.
Proof.
  unfold robotlaser_tokens. rewrite !len_app, len_cons.
  change (len (head_tokens f)) with 9. change (len (tail_tokens f)) with 14.
  lia.
Qed.

(** On a rightly resolved line the variant test skips the flags, all of
    them and nothing else. *)
Lemma skip_tooclose_resolved (f : robotlaser_fields) (flags : list string) :
  rightly_resolved (len (t_ranges f)) (len (t_remissions f)) flags ->
  skip_tooclose (robotlaser_tokens f flags) (9 + len (t_ranges f))
    (len (t_ranges f))
  = 9 + len (t_ranges f) + len flags.
Proof.
  intros Hres. unfold skip_tooclose, min_tail_A; cbv zeta.
  rewrite robotlaser_tokens_len.
  set (n := len (t_ranges f)) in *. set (m := len (t_remissions f)) in *.
  pose proof (Zgt_cases (9 + n + len flags + 1 + m + 14 - (9 + n)) (15 + n))
    as Hc.
  destruct Hres as [[-> Hres] | [Hflags Hres]].
  - rewrite len_nil in *.
    destruct (9 + n + 0 + 1 + m + 14 - (9 + n) >? 15 + n); lia.
  - destruct (9 + n + len flags + 1 + m + 14 - (9 + n) >? 15 + n); lia.
Qed.

(** The decoder on a well-formed and rightly resolved line. *)
Lemma robotlaser_body_run (self : CarmenLogReader) (f : robotlaser_fields)
    (v : robotlaser_values) (flags : list string) :
  well_formed f v ->
  rightly_resolved (len (t_ranges f)) (len (t_remissions f)) flags ->
  robotlaser_body self (robotlaser_tokens f flags)
  = Ok (robotlaser_record self v).
Proof.
  intros W Hres. unfold robotlaser_body.
  unfold robotlaser_tokens at 1.
  rewrite (robotlaser_prefix_run f v _ W); cbn [bind h_idx h_n].
  rewrite (skip_tooclose_resolved f flags Hres).
  assert (Htok : robotlaser_tokens f flags
                 = (head_tokens f ++ t_ranges f ++ flags)
                   ++ (t_num_rem f :: t_remissions f) ++ tail_tokens f).
  { unfold robotlaser_tokens. rewrite <- !app_assoc. reflexivity. }
  assert (Hlen : 9 + len (t_ranges f) + len flags
                 = len (head_tokens f ++ t_ranges f ++ flags)).
  { rewrite !len_app. change (len (head_tokens f)) with 9. lia. }
  rewrite Htok, Hlen.
  rewrite (robotlaser_tail_run self f v _ _ W). reflexivity.
Qed.

(** The third-from-last token of a robot-laser line is the first of the
    timestamp triplet. *)
Lemma robotlaser_third_from_last (f : robotlaser_fields) (flags : list string) :
  py_index (robotlaser_tokens f flags) (-3) = Ok (t_ipc_timestamp f).
Proof.
  assert (Htok : robotlaser_tokens f flags
                 = (head_tokens f ++ t_ranges f ++ flags
                    ++ t_num_rem f :: t_remissions f) ++ tail_tokens f).
  { unfold robotlaser_tokens. rewrite <- !app_assoc. reflexivity. }
  rewrite Htok.
  rewrite (py_index_from_end _ (tail_tokens f) 3)
    by (change (len (tail_tokens f)) with 14; lia).
  reflexivity.
Qed.

(** C6, as the code has it. For every well-formed robot-laser line that
    the threshold resolves rightly (Layout A with at most [n] remission
    values, Layout B with at least one, or [n = 0]), the record has
    [angle_min] equal to the start angle, [angle_increment] to the angular
    resolution, [range_min] to 0.0, [range_max] to the max-range field, the
    poses and velocities of the line, and as [stamp] the first value of the
    trailing three-token triplet, the third-from-last token of the line. *)
Theorem robotlaser_record_of_well_formed_line
    (self : CarmenLogReader) (line : string) (f : robotlaser_fields)
    (v : robotlaser_values) (flags : list string) :
  tokens line = robotlaser_tokens f flags ->
  well_formed f v ->
  rightly_resolved (len (t_ranges f)) (len (t_remissions f)) flags ->
  exists rec,
    _parse_robotlaser self line = Some rec /\
    angle_min rec = v_start_angle v /\
    angle_increment rec = v_ang_res v /\
    range_min rec = f0 /\
    range_max rec = v_max_range v /\
    ranges rec = v_ranges v /\
    robot_pose rec = Some (v_robot_pose v) /\
    laser_pose rec = Some (v_laser_pose v) /\
    tv rec = Some (v_tv v) /\
    rv rec = Some (v_rv v) /\
    stamp rec = v_ipc_timestamp v /\
    float_at (tokens line) (-3) = Ok (stamp rec).
Proof.
  intros Htok W Hres. exists (robotlaser_record self v).
  split.
  - unfold _parse_robotlaser; cbv zeta.
    rewrite Htok, (robotlaser_body_run self f v flags W Hres). reflexivity.
  - repeat (split; [ reflexivity | ]).
    unfold float_at. rewrite Htok, robotlaser_third_from_last; cbn [bind].
    exact (wf_ipc_timestamp f v W).
Qed.

(** Closes [well_formed f (values_of f)] for concrete fields. *)
Ltac well_formed_by_computation :=
  constructor;
  first [ vm_compute; reflexivity | eexists; vm_compute; reflexivity ].

Lemma robotlaser_record_of_well_formed_line_witness :
  exists rec,
    _parse_robotlaser example_reader two_remission_B_line = Some rec /\
    stamp rec = v_ipc_timestamp (values_of two_remission_fields) /\
    float_at (tokens two_remission_B_line) (-3) = Ok (stamp rec).
Proof.
  assert (Htok : tokens two_remission_B_line
                 = robotlaser_tokens two_remission_fields ["0"; "1"])
    by (vm_compute; reflexivity).
  assert (W : well_formed two_remission_fields (values_of two_remission_fields))
    by well_formed_by_computation.
  assert (Hres : rightly_resolved (len (t_ranges two_remission_fields))
                   (len (t_remissions two_remission_fields)) ["0"; "1"])
    by (right; split; [ reflexivity | left; reflexivity ]).
  destruct (robotlaser_record_of_well_formed_line example_reader
              two_remission_B_line two_remission_fields
              (values_of two_remission_fields) ["0"; "1"] Htok W Hres)
    as (rec & H1 & _ & _ & _ & _ & _ & _ & _ & _ & _ & H2 & H3).
  exists rec. split; [ exact H1 | split; [ exact H2 | exact H3 ] ].
Defined.

(** A well-formed Layout-B line without remission values: the threshold
    reads it as Layout A, the first flag as the remission count, and the
    stamp comes from a safety field. *)
Lemma layout_B_without_remissions_misread :
  well_formed two_beam_fields (values_of two_beam_fields) /\
  tokens two_beam_B_line = layoutB_tokens two_beam_fields ["0"; "0"] /\
  len ["0"; "0"] = len (t_ranges two_beam_fields) /\
  exists rec,
    _parse_robotlaser example_reader two_beam_B_line = Some rec /\
    stamp rec <> v_ipc_timestamp (values_of two_beam_fields) /\
    float_at (tokens two_beam_B_line) (-3) <> Ok (stamp rec) /\
    robot_pose rec <> Some (v_robot_pose (values_of two_beam_fields)).
Proof.
  split; [ well_formed_by_computation | ].
  split; [ vm_compute; reflexivity | ].
  split; [ reflexivity | ].
  eexists. split; [ vm_compute; reflexivity | ].
  vm_compute. repeat split; intros H; discriminate H.
Qed.

(** ** The two layouts of one line *)

(** C3, as the code has it. For every well-formed Layout-A line and the
    Layout-B line obtained from it by inserting [n] flag tokens between the
    range run and the remission count, when the remission count is between
    1 and [n] (or [n = 0]), both lines decode, to records with the same
    ranges, the same robot and laser pose and the same [tv] and [rv]. *)
Theorem layouts_decode_alike
    (self : CarmenLogReader) (lineA lineB : string) (f : robotlaser_fields)
    (v : robotlaser_values) (flags : list string) :
  tokens lineA = layoutA_tokens f ->
  tokens lineB = layoutB_tokens f flags ->
  len flags = len (t_ranges f) ->
  well_formed f v ->
  len (t_ranges f) = 0
  \/ 0 < len (t_remissions f) <= len (t_ranges f) ->
  exists ra rb,
    _parse_robotlaser self lineA = Some ra /\
    _parse_robotlaser self lineB = Some rb /\
    ranges ra = ranges rb /\
    robot_pose ra = robot_pose rb /\
    laser_pose ra = laser_pose rb /\
    tv ra = tv rb /\
    rv ra = rv rb.
Proof.
  intros HA HB Hflags W Hrem.
  assert (HresA : rightly_resolved (len (t_ranges f)) (len (t_remissions f)) [])
    by (left; split; [ reflexivity | lia ]).
  assert (HresB : rightly_resolved (len (t_ranges f)) (len (t_remissions f))
                    flags)
    by (right; split; [ exact Hflags | lia ]).
  exists (robotlaser_record self v), (robotlaser_record self v).
  unfold _parse_robotlaser; cbv zeta. rewrite HA, HB.
  unfold layoutA_tokens, layoutB_tokens.
  rewrite (robotlaser_body_run self f v [] W HresA).
  rewrite (robotlaser_body_run self f v flags W HresB).
  repeat split; reflexivity.
Qed.

Lemma layouts_decode_alike_witness :
  exists ra rb,
    _parse_robotlaser example_reader two_remission_A_line = Some ra /\
    _parse_robotlaser example_reader two_remission_B_line = Some rb /\
    ranges ra = ranges rb /\
    robot_pose ra = robot_pose rb /\
    laser_pose ra = laser_pose rb /\
    tv ra = tv rb /\
    rv ra = rv rb.
Proof.
  apply (layouts_decode_alike example_reader two_remission_A_line
           two_remission_B_line two_remission_fields
           (values_of two_remission_fields) ["0"; "1"]).
  - vm_compute. reflexivity.
  - vm_compute. reflexivity.
  - reflexivity.
  - well_formed_by_computation.
  - right. vm_compute. split; [ reflexivity | discriminate ].
Defined.

(** A well-formed Layout-A line and its Layout-B line that decode to
    different poses and velocities: with no remission value the threshold
    reads the Layout-B line as Layout A. *)
Lemma layouts_decode_differently :
  well_formed one_beam_fields (values_of one_beam_fields) /\
  tokens robotlaser_A_line = layoutA_tokens one_beam_fields /\
  tokens one_beam_B_line = layoutB_tokens one_beam_fields ["0"] /\
  len ["0"] = len (t_ranges one_beam_fields) /\
  exists ra rb,
    _parse_robotlaser example_reader robotlaser_A_line = Some ra /\
    _parse_robotlaser example_reader one_beam_B_line = Some rb /\
    robot_pose ra <> robot_pose rb /\
    laser_pose ra <> laser_pose rb /\
    tv ra <> tv rb /\
    rv ra <> rv rb.
Proof.
  split; [ well_formed_by_computation | ].
  split; [ vm_compute; reflexivity | ].
  split; [ vm_compute; reflexivity | ].
  split; [ reflexivity | ].
  do 2 eexists.
  split; [ vm_compute; reflexivity | ].
  split; [ vm_compute; reflexivity | ].
  vm_compute. repeat split; intros H; discriminate H.
Qed.

(** ** The conversion of small integers to floats *)

Lemma digits2_pos_iter_xO (p k : positive) :
  digits2_pos (Pos.iter xO p k) = (digits2_pos p + k)%positive.
Proof.
  induction k as [ | k IH] using Pos.peano_ind.
  - simpl. rewrite Pos.add_1_r. reflexivity.
  - rewrite Pos.iter_succ. simpl. rewrite IH, Pos.add_succ_r. reflexivity.
Qed.

Lemma digits2_pos_lower (p : positive) :
  2 ^ (Zpos (digits2_pos p) - 1) <= Zpos p.
Proof.
  induction p as [p IH | p IH | ]; simpl digits2_pos.
  - rewrite Pos2Z.inj_succ.
    replace (Z.succ (Zpos (digits2_pos p)) - 1)
      with (Z.succ (Zpos (digits2_pos p) - 1)) by lia.
    rewrite Z.pow_succ_r by lia. lia.
  - rewrite Pos2Z.inj_succ.
    replace (Z.succ (Zpos (digits2_pos p)) - 1)
      with (Z.succ (Zpos (digits2_pos p) - 1)) by lia.
    rewrite Z.pow_succ_r by lia. lia.
  - simpl. lia.
Qed.

Lemma digits2_pos_small (p : positive) :
  Zpos p < 2 ^ 53 -> Zpos (digits2_pos p) <= 53.
Proof.
  intros Hp. pose proof (digits2_pos_lower p) as Hl.
  destruct (Z.le_gt_cases (Zpos (digits2_pos p)) 53) as [H | H];
    [ exact H | exfalso ].
  assert (2 ^ 53 <= 2 ^ (Zpos (digits2_pos p) - 1))
    by (apply Z.pow_le_mono_r; lia).
  lia.
Qed.

(** A mantissa of 53 bits with an exponent in range is kept as it is. *)
Lemma binary_round_aux_exact (m : positive) (e : Z) :
  Zpos (digits2_pos m) = 53 -> -1074 <= e <= 971 ->
  binary_round_aux prec emax false (Zpos m) e loc_Exact
  = S754_finite false m e.
Proof.
  intros Hd He.
  assert (Hshift : fexp prec emax (Zdigits2 (Zpos m) + e) - e = 0).
  { unfold fexp, emin, prec, emax, Zdigits2. rewrite Hd. lia. }
  unfold binary_round_aux, shr_fexp.
  rewrite Hshift. cbn [shr shr_record_of_loc shr_m loc_of_shr_record
                         round_nearest_even].
  rewrite Hshift. cbn [shr shr_record_of_loc shr_m].
  assert (Hle : (e <=? emax - prec) = true)
    by (apply Z.leb_le; unfold emax, prec; lia).
  rewrite Hle. reflexivity.
Qed.

(** Below [2^53] the conversion is exact, hence finite. *)
Lemma Z_to_float_small (z : Z) :
  0 < z < 2 ^ 53 -> exists m e, Z_to_float z = S754_finite false m e.
Proof.
  intros Hz. destruct z as [ | p | p]; try lia.
  pose proof (digits2_pos_small p (proj2 Hz)) as Hd.
  unfold Z_to_float, binary_normalize, binary_round.
  assert (Hfexp : fexp prec emax (Zpos (digits2_pos p) + 0)
                  = Zpos (digits2_pos p) - 53)
    by (unfold fexp, emin, prec, emax; lia).
  rewrite Hfexp. unfold shl_align.
  destruct (Zpos (digits2_pos p) - 53 - 0) as [ | q | q] eqn:Hq; try lia.
  - rewrite binary_round_aux_exact by lia. eauto.
  - rewrite binary_round_aux_exact; [ eauto | | lia ].
    rewrite digits2_pos_iter_xO. lia.
Qed.

Lemma py_int_to_float_small (z : Z) :
  0 < z < 2 ^ 53 -> py_int_to_float z = Ok (Z_to_float z).
Proof.
  intros Hz. destruct (Z_to_float_small z Hz) as (m & e & H).
  unfold py_int_to_float. fold (Z_to_float z). rewrite H. reflexivity.
Qed.

(** ** The order of floats and [max] *)

Ltac float_cases :=
  unfold fleb, fltb, SFleb, SFltb, SFcompare, is_nan.

(** [fleb] is a total preorder on the floats that are not NaN. *)
Lemma fleb_refl (a : float) : is_nan a = false -> fleb a a = true.
Proof.
  float_cases. destruct a as [ [] | [] | | [] m e ]; intros H;
    try reflexivity; try discriminate H;
    rewrite Z.compare_refl; fold (Pos.compare m m);
    rewrite Pos.compare_refl; reflexivity.
Qed.

Lemma fltb_fleb (a b : float) : fltb a b = true -> fleb a b = true.
Proof.
  unfold fleb, fltb, SFleb, SFltb.
  destruct (SFcompare a b) as [ [] | ]; intros H;
    try reflexivity; discriminate H.
Qed.

Lemma SFcompare_opp (a b : float) :
  SFcompare b a = option_map CompOpp (SFcompare a b).
Proof.
  destruct a as [ [] | [] | | [] ma ea ], b as [ [] | [] | | [] mb eb ];
    try reflexivity; simpl;
    rewrite (Z.compare_antisym ea eb);
    fold (Pos.compare ma mb); fold (Pos.compare mb ma);
    rewrite (Pos.compare_antisym ma mb);
    destruct (ea ?= eb); simpl; try reflexivity;
    destruct (ma ?= mb)%positive; reflexivity.
Qed.

Lemma fleb_total (a b : float) :
  is_nan a = false -> is_nan b = false ->
  fltb a b = false -> fleb b a = true.
Proof.
  intros Ha Hb. unfold fltb, fleb, SFltb, SFleb.
  rewrite (SFcompare_opp a b).
  destruct a as [ [] | [] | | [] ma ea ], b as [ [] | [] | | [] mb eb ];
    try discriminate Ha; try discriminate Hb;
    destruct (SFcompare _ _) as [ [] | ] eqn:Hc; simpl; intros H;
    try reflexivity; try discriminate H; try discriminate Hc.
Qed.

Ltac order_case :=
  simpl;
  first [ intros; reflexivity
        | let H := fresh in intros H; discriminate H
        | let H := fresh in intros _ H; discriminate H ].

Lemma fleb_trans (a b c : float) :
  fleb a b = true -> fleb b c = true -> fleb a c = true.
Proof.
  float_cases.
  destruct a as [ [] | [] | | [] ma ea ], b as [ [] | [] | | [] mb eb ],
    c as [ [] | [] | | [] mc ec ];
    try order_case;
    fold (Pos.compare ma mb); fold (Pos.compare mb mc); fold (Pos.compare ma mc);
    destruct (Z.compare_spec ea eb); destruct (Z.compare_spec eb ec);
    destruct (Z.compare_spec ea ec); try lia; try order_case;
    subst;
    destruct (Pos.compare_spec ma mb); destruct (Pos.compare_spec mb mc);
    destruct (Pos.compare_spec ma mc); try lia; order_case.
Qed.

(** The running maximum of NaN-free floats is one of them and is not
    below any of them. *)
Lemma max_from_is_max (l : list float) (m : float) :
  is_nan m = false -> forallb (fun a => negb (is_nan a)) l = true ->
  In (max_from m l) (m :: l) /\
  Forall (fun a => fleb a (max_from m l) = true) (m :: l).
Proof.
  revert m. induction l as [ | a l IH]; intros m Hm Hl; simpl max_from.
  - split; [ left; reflexivity | ].
    constructor; [ apply fleb_refl; exact Hm | constructor ].
  - simpl in Hl. apply andb_true_iff in Hl. destruct Hl as [Ha Hl].
    apply negb_true_iff in Ha.
    set (m' := if fltb m a then a else m).
    assert (Hm' : is_nan m' = false)
      by (subst m'; destruct (fltb m a); assumption).
    assert (Hle : fleb m m' = true /\ fleb a m' = true).
    { subst m'. destruct (fltb m a) eqn:Hlt.
      - split; [ apply fltb_fleb; exact Hlt | apply fleb_refl; exact Ha ].
      - split; [ apply fleb_refl; exact Hm | apply fleb_total; assumption ]. }
    destruct (IH m' Hm' Hl) as [Hin Hall].
    inversion Hall as [ | ? ? Hhead Htail ]; subst.
    split.
    + destruct Hin as [Hin | Hin]; [ | right; right; exact Hin ].
      rewrite <- Hin. subst m'. destruct (fltb m a); [ right | ]; left;
        reflexivity.
    + constructor; [ eapply fleb_trans; [ apply Hle | exact Hhead ] | ].
      constructor; [ eapply fleb_trans; [ apply Hle | exact Hhead ] | ].
      exact Htail.
Qed.

Lemma max_or_zero_is_max (rs : list float) :
  rs <> [] -> forallb (fun a => negb (is_nan a)) rs = true ->
  In (max_or_zero rs) rs /\
  Forall (fun a => fleb a (max_or_zero rs) = true) rs.
Proof.
  destruct rs as [ | a l]; [ intros H; contradiction | intros _ H ].
  simpl in H. apply andb_true_iff in H. destruct H as [Ha Hl].
  apply negb_true_iff in Ha. apply max_from_is_max; assumption.
Qed.

(** ** Well-formed legacy lines *)

(** [l[-k]] is the [k]-th element from the end. *)
Lemma py_index_neg {A : Type} (l : list A) (k : Z) (a : A) :
  0 < k <= len l ->
  nth_error l (List.length l - Z.to_nat k) = Some a ->
  py_index l (- k) = Ok a.
Proof.
  intros Hk Hn. unfold py_index.
  assert (H1 : (- k <? 0) = true) by (apply Z.ltb_lt; lia).
  assert (H2 : (- k + len l <? 0) = false) by (apply Z.ltb_ge; lia).
  rewrite H1, H2.
  replace (Z.to_nat (- k + len l)) with (List.length l - Z.to_nat k)%nat
    by (unfold len in *; lia).
  rewrite Hn. reflexivity.
Qed.

(** The record of a legacy line, given the divisor of the increment. *)
Lemma flaser_body_run (self : CarmenLogReader) (tag ntok : string)
    (rtoks : list string) (xt yt tht : string) (rest : list string)
    (rs : list float) (px py pth st : float) (tst : string) :
  let tok := legacy_tokens tag ntok rtoks xt yt tht rest in
  py_int ntok = Ok (len rtoks) ->
  mapM py_float rtoks = Ok rs ->
  py_float xt = Ok px -> py_float yt = Ok py -> py_float tht = Ok pth ->
  nth_error tok (List.length tok - 3) = Some tst ->
  py_float tst = Ok st ->
  flaser_body self tok
  = (inc <- py_truediv_int (fsub (fdiv math_pi f2) (fdiv (fopp math_pi) f2))
              (Z.max (len rtoks - 1) 1) ;;
     Ok {| stamp := st;
           frame_id := _scan_frame_id self;
           angle_min := fdiv (fopp math_pi) f2;
           angle_increment := inc;
           range_min := f0;
           range_max := max_or_zero rs;
           ranges := rs;
           robot_pose := Some (mkPose2D px py pth);
           laser_pose := None;
           tv := None;
           rv := None |}).
Proof.
  intros tok Hn Hr Hx Hy Hth Hts Hst.
  pose proof (len_nonneg rtoks) as Hn0.
  pose proof (len_nonneg rest) as Hrest0.
  assert (Ha : tok = [tag; ntok] ++ rtoks ++ xt :: yt :: tht :: rest)
    by reflexivity.
  assert (Hb : tok = ([tag; ntok] ++ rtoks) ++ xt :: yt :: tht :: rest)
    by reflexivity.
  assert (Hlen : len ([tag; ntok] ++ rtoks) = 2 + len rtoks)
    by (rewrite len_app; change (len [tag; ntok]) with 2; lia).
  assert (Htoklen : len tok = 2 + len rtoks + 3 + len rest).
  { rewrite Hb, len_app, Hlen, !len_cons. lia. }
  unfold flaser_body; cbv zeta; norm_idx.
  assert (H1 : int_at tok 1 = Ok (len rtoks))
    by (unfold int_at; change (py_index tok 1) with (Ok ntok); exact Hn).
  rewrite H1; cbn [bind].
  rewrite Ha at 1.
  rewrite (py_slice_app [tag; ntok] rtoks _ 2 (2 + len rtoks) eq_refl eq_refl).
  rewrite Hr; cbn [bind].
  rewrite (float_at_split tok _ _ (2 + len rtoks) 0 xt px Hb
             ltac:(lia) ltac:(lia) eq_refl Hx); cbn [bind].
  rewrite (float_at_split tok _ _ (2 + len rtoks + 1) 1 yt py Hb
             ltac:(lia) ltac:(lia) eq_refl Hy); cbn [bind].
  rewrite (float_at_split tok _ _ (2 + len rtoks + 2) 2 tht pth Hb
             ltac:(lia) ltac:(lia) eq_refl Hth); cbn [bind].
  assert (H3 : float_at tok (-3) = Ok st).
  { unfold float_at. change (-3) with (- (3)).
    rewrite (py_index_neg tok 3 tst ltac:(lia) Hts); cbn [bind]. exact Hst. }
  rewrite H3; cbn [bind].
  reflexivity.
Qed.

(** C7. For every well-formed FLASER or RLASER line with beam count [n],
    a record that is produced has as [stamp] the float of the third-from-last
    token, [angle_min] equal to minus pi over 2, [angle_increment] equal to
    (pi/2 - (-pi/2)) / max(n - 1, 1), [range_min] equal to 0.0, [range_max]
    equal to [max(ranges)], or 0.0 without ranges, [robot_pose] from the
    three floats after the range run, and no [laser_pose].  When no range
    is a NaN, [max(ranges)] is one of the ranges and none is above it.
    The record is produced whenever the division by [max(n - 1, 1)] does not
    overflow, and certainly for [n] up to [2^53]. *)
Theorem legacy_record_of_well_formed_line
    (self : CarmenLogReader) (line : string) (tag ntok : string)
    (rtoks : list string) (xt yt tht : string) (rest : list string)
    (rs : list float) (px py pth st : float) (tst : string) :
  startswith line "FLASER " = true \/ startswith line "RLASER " = true ->
  tokens line = legacy_tokens tag ntok rtoks xt yt tht rest ->
  py_int ntok = Ok (len rtoks) ->
  mapM py_float rtoks = Ok rs ->
  py_float xt = Ok px -> py_float yt = Ok py -> py_float tht = Ok pth ->
  nth_error (tokens line) (List.length (tokens line) - 3) = Some tst ->
  py_float tst = Ok st ->
  (forall rec,
     dispatch self line = Some rec ->
     stamp rec = st /\
     angle_min rec = fdiv (fopp math_pi) f2 /\
     py_truediv_int (fsub (fdiv math_pi f2) (fdiv (fopp math_pi) f2))
       (Z.max (len rtoks - 1) 1) = Ok (angle_increment rec) /\
     range_min rec = f0 /\
     range_max rec = max_or_zero (ranges rec) /\
     (ranges rec = [] -> range_max rec = f0) /\
     (ranges rec <> [] ->
      forallb (fun a => negb (is_nan a)) (ranges rec) = true ->
      In (range_max rec) (ranges rec) /\
      Forall (fun a => fleb a (range_max rec) = true) (ranges rec)) /\
     ranges rec = rs /\
     robot_pose rec = Some (mkPose2D px py pth) /\
     laser_pose rec = None) /\
  (len rtoks <= 2 ^ 53 ->
   exists rec,
     dispatch self line = Some rec /\
     angle_increment rec
     = fdiv (fsub (fdiv math_pi f2) (fdiv (fopp math_pi) f2))
         (Z_to_float (Z.max (len rtoks - 1) 1))).
Proof.
  intros Htag Htok Hn Hr Hx Hy Hth Hts Hst.
  assert (Hd : dispatch self line
               = try_except
                   (inc <- py_truediv_int
                             (fsub (fdiv math_pi f2) (fdiv (fopp math_pi) f2))
                             (Z.max (len rtoks - 1) 1) ;;
                    Ok {| stamp := st;
                          frame_id := _scan_frame_id self;
                          angle_min := fdiv (fopp math_pi) f2;
                          angle_increment := inc;
                          range_min := f0;
                          range_max := max_or_zero rs;
                          ranges := rs;
                          robot_pose := Some (mkPose2D px py pth);
                          laser_pose := None;
                          tv := None;
                          rv := None |})).
  { rewrite (dispatch_legacy _ _ Htag).
    unfold _parse_flaser; cbv zeta. rewrite Htok in *.
    rewrite (flaser_body_run self tag ntok rtoks xt yt tht rest rs px py pth
               st tst Hn Hr Hx Hy Hth Hts Hst).
    reflexivity. }
  split.
  - intros rec Hrec. rewrite Hd in Hrec. apply try_except_some in Hrec.
    apply bind_ok_inv in Hrec. destruct Hrec as (inc & Hinc & Hrec).
    inversion Hrec; subst rec; clear Hrec.
    cbn [stamp angle_min angle_increment range_min range_max ranges
           robot_pose laser_pose].
    split; [ reflexivity | ]. split; [ reflexivity | ].
    split; [ exact Hinc | ]. split; [ reflexivity | ].
    split; [ reflexivity | ].
    split; [ intros ->; reflexivity | ].
    split; [ apply max_or_zero_is_max | ].
    repeat split; reflexivity.
  - intros Hbound. pose proof (len_nonneg rtoks) as Hn0.
    rewrite Hd. unfold py_truediv_int.
    rewrite py_int_to_float_small by lia. cbn [bind try_except].
    eexists. split; reflexivity.
Qed.

Lemma legacy_record_of_well_formed_line_witness :
  exists rec,
    dispatch example_reader legacy_example_line = Some rec /\
    stamp rec = Z_to_float 1000 /\
    angle_increment rec
    = fdiv (fsub (fdiv math_pi f2) (fdiv (fopp math_pi) f2)) (Z_to_float 1) /\
    laser_pose rec = None.
Proof.
  destruct (legacy_record_of_well_formed_line example_reader
              legacy_example_line "RLASER" "2" ["1.5"; "0.5"] "4.0" "5.0" "6.0"
              ["7.0"; "8.0"; "9.0"; "1000.0"; "host"; "1000.1"]
              [float_of "1.5"; float_of "0.5"]
              (float_of "4.0") (float_of "5.0") (float_of "6.0")
              (Z_to_float 1000) "1000.0")
    as (Hall & Hsome).
  - right. reflexivity.
  - vm_compute. reflexivity.
  - vm_compute. reflexivity.
  - vm_compute. reflexivity.
  - vm_compute. reflexivity.
  - vm_compute. reflexivity.
  - vm_compute. reflexivity.
  - vm_compute. reflexivity.
  - vm_compute. reflexivity.
  - destruct Hsome as (rec & Hrec & Hinc); [ vm_compute; discriminate | ].
    destruct (Hall rec Hrec) as (H1 & _ & _ & _ & _ & _ & _ & _ & _ & H2).
    exists rec. repeat split; assumption.
Defined.

(** * Further properties of the reader *)

(** ** The stream, line by line *)

(** X1. [iter_scans] keeps nothing from one line to the next: the records
    of two streams read one after the other are the records of the first
    followed by the records of the second. *)
Theorem iter_scans_app (self : CarmenLogReader) (lines1 lines2 : list string) :
  iter_scans self (lines1 ++ lines2)
  = iter_scans self lines1 ++ iter_scans self lines2.
Proof.
  induction lines1 as [ | line rest IH]; simpl; [ reflexivity | ].
  destruct (skipped line); [ exact IH | ].
  destruct (dispatch self line); simpl; rewrite IH; reflexivity.
Qed.

Lemma recognized_false_dispatch self line :
  recognized line = false -> dispatch self line = None.
Proof.
  unfold recognized, dispatch. intros H.
  apply orb_false_iff in H. destruct H as [H H3].
  apply orb_false_iff in H. destruct H as [H1 H2].
  rewrite H1, H2, H3. reflexivity.
Qed.

(** A line that starts with white space has no recognized tag. *)
Lemma indented_not_recognized (c : ascii) (s : string) :
  py_isspace c = true -> recognized (String c s) = false.
Proof.
  intros Hc. unfold recognized, startswith. rewrite !prefix_cons.
  destruct (Ascii.eqb "R" c) eqn:HR;
    [ apply Ascii.eqb_eq in HR; subst c; discriminate Hc | ].
  destruct (Ascii.eqb "F" c) eqn:HF;
    [ apply Ascii.eqb_eq in HF; subst c; discriminate Hc | ].
  reflexivity.
Qed.

(** X2. An empty line, a line that starts with [#], a line that starts
    with white space (so an indented FLASER line too) and a line that starts
    with none of the three tags give no record, wherever they stand: the
    stream yields what it yields without them. *)
Theorem ignored_lines_leave_no_trace
    (self : CarmenLogReader) (before after : list string) (line : string) :
  skipped line = true
  \/ (exists c s, line = String c s /\ py_isspace c = true)
  \/ recognized line = false ->
  iter_scans self (before ++ line :: after)
  = iter_scans self (before ++ after).
Proof.
  intros H. rewrite !iter_scans_app. f_equal.
  simpl. destruct (skipped line) eqn:Hs; [ reflexivity | ].
  destruct H as [H | [(c & s & -> & Hc) | H]].
  - discriminate H.
  - rewrite (recognized_false_dispatch _ _ (indented_not_recognized c s Hc)).
    reflexivity.
  - rewrite (recognized_false_dispatch _ _ H). reflexivity.
Qed.

Lemma ignored_lines_leave_no_trace_witness :
  iter_scans example_reader
    ([flaser_example_line] ++ " FLASER 1 1.0 2.0 3.0 4.0 9.5 host 9.6"
                              :: [robotlaser_A_line])
  = iter_scans example_reader ([flaser_example_line] ++ [robotlaser_A_line]).
Proof.
  apply (ignored_lines_leave_no_trace example_reader).
  right. left. exists " "%char, "FLASER 1 1.0 2.0 3.0 4.0 9.5 host 9.6".
  split; reflexivity.
Defined.

(** The decoder a record of the dispatch comes from. *)
Lemma dispatch_some self line rec :
  dispatch self line = Some rec ->
  (startswith line "ROBOTLASER" = true
   /\ _parse_robotlaser self line = Some rec)
  \/ (startswith line "ROBOTLASER" = false
      /\ (startswith line "FLASER " = true \/ startswith line "RLASER " = true)
      /\ _parse_flaser self line = Some rec).
Proof.
  unfold dispatch, _parse_rlaser. intros H.
  destruct (startswith line "ROBOTLASER"); [ left; auto | right ].
  split; [ reflexivity | ].
  destruct (startswith line "FLASER "); [ auto | ].
  destruct (startswith line "RLASER "); [ auto | discriminate H ].
Qed.

Lemma parse_flaser_some self line rec :
  _parse_flaser self line = Some rec ->
  flaser_body self (tokens line) = Ok rec.
Proof.
  unfold _parse_flaser; cbv zeta. intros H.
  apply try_except_some in H. exact H.
Qed.

(** X3. Every record of the stream carries the frame label the reader was
    built with, has [range_min] equal to 0.0, and has a robot pose; with
    the default reader the label is "laser". *)
Theorem every_record_has_frame_and_range_min
    (self : CarmenLogReader) (lines : list string) :
  Forall (fun rec => frame_id rec = _scan_frame_id self
                     /\ range_min rec = f0
                     /\ exists p, robot_pose rec = Some p)
    (iter_scans self lines)
  /\ (forall path,
        Forall (fun rec => frame_id rec = "laser")
          (iter_scans (CarmenLogReader_default path) lines)).
Proof.
  assert (Hall : forall r : CarmenLogReader,
             Forall (fun rec => frame_id rec = _scan_frame_id r
                                /\ range_min rec = f0
                                /\ exists p, robot_pose rec = Some p)
               (iter_scans r lines)).
  { intros r. apply Forall_forall. intros rec Hin.
    destruct (iter_scans_origin _ _ _ Hin) as (line & _ & Hd).
    destruct (dispatch_some _ _ _ Hd) as [[_ Hp] | (_ & _ & Hp)].
    - destruct (parse_robotlaser_some _ _ _ Hp) as (h & _ & Ht).
      destruct (robotlaser_tail_ok _ _ _ _ _ Ht)
        as (m & _ & _ & (p & _ & Hrp) & _ & _ & _ & Hf & _ & _ & Hm & _).
      split; [ exact Hf | ]. split; [ exact Hm | exists p; exact Hrp ].
    - apply parse_flaser_some in Hp.
      destruct (flaser_body_ok _ _ _ Hp)
        as (n & px & py & pth & _ & _ & _ & _ & _ & Hrp & _ & _ & _ & Hm
            & _ & _ & _ & _ & Hf).
      split; [ exact Hf | ]. split; [ exact Hm | eexists; exact Hrp ]. }
  split; [ apply Hall | ].
  intros path. eapply Forall_impl; [ | apply Hall ].
  intros rec (Hf & _). exact Hf.
Qed.

(** X4. In every record of the stream the laser pose and the two
    velocities are all present or all absent: present in the records of
    ROBOTLASER lines, absent in those of FLASER and RLASER lines, whose
    [angle_min] is minus pi over 2. *)
Theorem record_shape_follows_tag (self : CarmenLogReader) (lines : list string)
    (rec : LaserScan2DRecord) :
  In rec (iter_scans self lines) ->
  exists line,
    In line lines /\ dispatch self line = Some rec /\
    ((startswith line "ROBOTLASER" = true
      /\ (exists p, laser_pose rec = Some p)
      /\ (exists v, tv rec = Some v) /\ (exists v, rv rec = Some v))
     \/ ((startswith line "FLASER " = true \/ startswith line "RLASER " = true)
         /\ laser_pose rec = None /\ tv rec = None /\ rv rec = None
         /\ angle_min rec = minus_pi_over_2)).
Proof.
  intros Hin.
  destruct (iter_scans_origin _ _ _ Hin) as (line & Hl & Hd).
  exists line. split; [ exact Hl | ]. split; [ exact Hd | ].
  destruct (dispatch_some _ _ _ Hd) as [[Htag Hp] | (_ & Htag & Hp)].
  - left. destruct (parse_robotlaser_some _ _ _ Hp) as (h & _ & Ht).
    destruct (robotlaser_tail_ok _ _ _ _ _ Ht)
      as (m & _ & (p & _ & Hlp) & _ & (v1 & _ & Htv) & (v2 & _ & Hrv) & _).
    split; [ exact Htag | ]. repeat split; eauto.
  - right. apply parse_flaser_some in Hp.
    destruct (flaser_body_ok _ _ _ Hp)
      as (n & px & py & pth & _ & _ & _ & _ & _ & _ & _ & _ & Ha & _
          & _ & Hlp & Htv & Hrv & _).
    split; [ exact Htag | ]. repeat split; assumption.
Qed.

Lemma record_shape_follows_tag_witness :
  exists rec line,
    In rec (iter_scans example_reader good_lines) /\
    In line good_lines /\ dispatch example_reader line = Some rec.
Proof.
  assert (Hin : { rec | In rec (iter_scans example_reader good_lines) }).
  { eexists. vm_compute. left. reflexivity. }
  destruct Hin as [rec Hin].
  destruct (record_shape_follows_tag example_reader good_lines rec Hin)
    as (line & Hl & Hd & _).
  exists rec, line. split; [ exact Hin | split; assumption ].
Defined.

(** ** What the configuration reaches *)

(** Destructs the computations a sequence of binds runs, in order. *)
Ltac run_binds :=
  repeat match goal with
         | |- context [bind ?m _] => destruct m; cbn [bind]
         end.

Lemma robotlaser_body_frame (r1 r2 : CarmenLogReader) (tok : list string) :
  robotlaser_body r2 tok
  = match robotlaser_body r1 tok with
    | Ok rec => Ok (with_frame_id (_scan_frame_id r2) rec)
    | Raise e => Raise e
    end.
Proof.
  unfold robotlaser_body.
  destruct (robotlaser_prefix tok) as [h | e]; cbn [bind]; [ | reflexivity ].
  unfold robotlaser_tail, pose_at; cbv zeta.
  run_binds; reflexivity.
Qed.

Lemma flaser_body_frame (r1 r2 : CarmenLogReader) (tok : list string) :
  flaser_body r2 tok
  = match flaser_body r1 tok with
    | Ok rec => Ok (with_frame_id (_scan_frame_id r2) rec)
    | Raise e => Raise e
    end.
Proof.
  unfold flaser_body; cbv zeta.
  run_binds; reflexivity.
Qed.

Lemma dispatch_frame (r1 r2 : CarmenLogReader) (line : string) :
  dispatch r2 line
  = option_map (with_frame_id (_scan_frame_id r2)) (dispatch r1 line).
Proof.
  unfold dispatch, _parse_rlaser, _parse_robotlaser, _parse_flaser; cbv zeta.
  rewrite (robotlaser_body_frame r1 r2), (flaser_body_frame r1 r2).
  destruct (startswith line "ROBOTLASER");
    [ destruct (robotlaser_body r1 (tokens line)); reflexivity | ].
  destruct (startswith line "FLASER ");
    [ destruct (flaser_body r1 (tokens line)); reflexivity | ].
  destruct (startswith line "RLASER ");
    [ destruct (flaser_body r1 (tokens line)); reflexivity | reflexivity ].
Qed.

(** X5. Of the reader's configuration (path, frame label, timestamp flag)
    only the frame label reaches the records, and only their [frame_id]:
    the records of any reader are those of any other reader with the
    [frame_id] replaced, same number and same order. *)
Theorem configuration_reaches_frame_id_only
    (r1 r2 : CarmenLogReader) (lines : list string) :
  iter_scans r2 lines
  = map (with_frame_id (_scan_frame_id r2)) (iter_scans r1 lines).
Proof.
  induction lines as [ | line rest IH]; simpl; [ reflexivity | ].
  destruct (skipped line); [ exact IH | ].
  rewrite (dispatch_frame r1 r2 line).
  destruct (dispatch r1 line); simpl; rewrite IH; reflexivity.
Qed.

(** ** The robot-laser decoder on every line *)

(** X6. Whatever comes after the range run, and however the layout is
    resolved, a record of a ROBOTLASER line has [angle_min], [angle_increment]
    and [range_max] equal to the floats of tokens 2, 4 and 5, and, for a
    beam count [n >= 0] at token 8, ranges equal to the floats of the [n]
    tokens from position 9. *)
Theorem robotlaser_header_fields_always_right
    (self : CarmenLogReader) (line : string) (rec : LaserScan2DRecord) :
  _parse_robotlaser self line = Some rec ->
  float_at (tokens line) 2 = Ok (angle_min rec) /\
  float_at (tokens line) 4 = Ok (angle_increment rec) /\
  float_at (tokens line) 5 = Ok (range_max rec) /\
  exists n,
    int_at (tokens line) 8 = Ok n /\
    (0 <= n ->
     mapM py_float (firstn (Z.to_nat n) (skipn 9 (tokens line)))
     = Ok (ranges rec)).
Proof.
  intros Hrec.
  destruct (parse_robotlaser_some _ _ _ Hrec) as (h & Hp & Ht).
  destruct (robotlaser_prefix_ok _ _ Hp) as (H2 & H4 & H5 & Hn & _ & _).
  destruct (robotlaser_tail_ok _ _ _ _ _ Ht)
    as (m & _ & _ & _ & _ & _ & _ & _ & Ha & Hi & _ & Hm & _).
  rewrite Ha, Hi, Hm. repeat (split; [ assumption | ]).
  exists (h_n h). split; [ exact Hn | ]. intros Hn0.
  destruct (robotlaser_run_inside _ _ _ _ Hrec Hn Hn0) as [Hlen Hr].
  rewrite py_slice_inside in Hr by lia.
  replace (9 + h_n h - 9) with (h_n h) in Hr by lia. exact Hr.
Qed.

Lemma robotlaser_header_fields_always_right_witness :
  exists rec,
    _parse_robotlaser example_reader two_beam_B_line = Some rec /\
    float_at (tokens two_beam_B_line) 2 = Ok (angle_min rec) /\
    float_at (tokens two_beam_B_line) 5 = Ok (range_max rec).
Proof.
  assert (H : { rec | _parse_robotlaser example_reader two_beam_B_line
                      = Some rec }).
  { eexists. vm_compute. reflexivity. }
  destruct H as [rec Hrec].
  destruct (robotlaser_header_fields_always_right example_reader
              two_beam_B_line rec Hrec) as (H2 & _ & H5 & _).
  exists rec. split; [ exact Hrec | split; assumption ].
Defined.

(** X7. A ROBOTLASER line gives a record only when it is long enough: with
    a beam count [n >= 0] and a remission count [m >= 0], read where the
    layout resolution puts it, the line has at least [22 + n + m] tokens:
    the tag, the eight fixed fields, the ranges, the remission count and
    values, and the twelve tokens up to the stamp. *)
Theorem robotlaser_record_needs_tokens
    (self : CarmenLogReader) (line : string) (rec : LaserScan2DRecord) :
  _parse_robotlaser self line = Some rec ->
  exists n m,
    int_at (tokens line) 8 = Ok n /\
    int_at (tokens line) (skip_tooclose (tokens line) (9 + n) n) = Ok m /\
    (0 <= n -> 0 <= m -> 22 + n + m <= len (tokens line)).
Proof.
  intros Hrec.
  destruct (parse_robotlaser_some _ _ _ Hrec) as (h & Hp & Ht).
  destruct (robotlaser_prefix_ok _ _ Hp) as (_ & _ & _ & Hn & _ & Hidx).
  rewrite Hidx in Ht.
  destruct (robotlaser_tail_ok _ _ _ _ _ Ht)
    as (m & Hm & _ & _ & _ & _ & Hst & _).
  exists (h_n h), m. split; [ exact Hn | ]. split; [ exact Hm | ].
  intros Hn0 Hm0.
  pose proof (skip_tooclose_ge (tokens line) (9 + h_n h) (h_n h) Hn0) as Hge.
  apply float_at_ok_nonneg in Hst; lia.
Qed.

Lemma robotlaser_record_needs_tokens_witness :
  exists rec n m,
    _parse_robotlaser example_reader robotlaser_A_line = Some rec /\
    int_at (tokens robotlaser_A_line) 8 = Ok n /\
    int_at (tokens robotlaser_A_line)
      (skip_tooclose (tokens robotlaser_A_line) (9 + n) n) = Ok m.
Proof.
  assert (H : { rec | _parse_robotlaser example_reader robotlaser_A_line
                      = Some rec }).
  { eexists. vm_compute. reflexivity. }
  destruct H as [rec Hrec].
  destruct (robotlaser_record_needs_tokens example_reader robotlaser_A_line
              rec Hrec) as (n & m & Hn & Hm & _).
  exists rec, n, m. split; [ exact Hrec | split; assumption ].
Defined.

(** ** The legacy decoder on every line *)

(** X8. A legacy line gives a record only when it is long enough: with a
    beam count [n >= 0] it has at least [n + 5] tokens (tag, count, the
    range run and the three pose tokens). *)
Theorem legacy_record_needs_tokens
    (self : CarmenLogReader) (line : string) (rec : LaserScan2DRecord) (n : Z) :
  _parse_flaser self line = Some rec ->
  int_at (tokens line) 1 = Ok n -> 0 <= n ->
  n + 5 <= len (tokens line).
Proof.
  intros Hrec Hn Hn0. apply parse_flaser_some in Hrec.
  destruct (flaser_body_ok _ _ _ Hrec)
    as (n' & px & py & pth & Hn' & _ & _ & _ & Hth & _).
  rewrite Hn in Hn'. inversion Hn'; subst n'.
  apply float_at_ok_nonneg in Hth; lia.
Qed.

Lemma legacy_record_needs_tokens_witness :
  1 + 5 <= len (tokens flaser_no_trailer_line).
Proof.
  assert (H : { rec | _parse_flaser example_reader flaser_no_trailer_line
                      = Some rec }).
  { eexists. vm_compute. reflexivity. }
  destruct H as [rec Hrec].
  apply (legacy_record_needs_tokens example_reader flaser_no_trailer_line
           rec 1 Hrec).
  - vm_compute. reflexivity.
  - lia.
Defined.

Lemma py_index_neg_from_front {A : Type} (l : list A) (k : Z) :
  0 < k <= len l -> py_index l (- k) = py_index l (len l - k).
Proof.
  intros Hk. unfold py_index.
  assert (H1 : (- k <? 0) = true) by (apply Z.ltb_lt; lia).
  assert (H2 : (len l - k <? 0) = false) by (apply Z.ltb_ge; lia).
  assert (H3 : (- k + len l <? 0) = false) by (apply Z.ltb_ge; lia).
  rewrite H1, H2, H3. cbv iota zeta. rewrite H2.
  replace (- k + len l) with (len l - k) by lia. reflexivity.
Qed.

(** X9. The legacy decoder takes the stamp from the third-from-last token
    without looking whether it has read that token already: on a line with
    beam count [n >= 0] that gives a record, the stamp is the pose's [x]
    when the line has [n + 5] tokens, its [y] with [n + 6] and its [yaw]
    with [n + 7]. *)
Theorem legacy_stamp_aliases_pose
    (self : CarmenLogReader) (line : string) (rec : LaserScan2DRecord) (n : Z)
    (p : Pose2D) :
  _parse_flaser self line = Some rec ->
  int_at (tokens line) 1 = Ok n -> 0 <= n ->
  robot_pose rec = Some p ->
  (len (tokens line) = n + 5 -> stamp rec = x p) /\
  (len (tokens line) = n + 6 -> stamp rec = y p) /\
  (len (tokens line) = n + 7 -> stamp rec = yaw p).
Proof.
  intros Hrec Hn Hn0 Hp. apply parse_flaser_some in Hrec.
  destruct (flaser_body_ok _ _ _ Hrec)
    as (n' & px & py & pth & Hn' & _ & Hx & Hy & Hth & Hrp & Hst & _).
  rewrite Hn in Hn'. inversion Hn'; subst n'.
  rewrite Hp in Hrp. inversion Hrp; subst p; cbn [x y yaw].
  assert (Hlen : 2 + n + 2 < len (tokens line))
    by (eapply float_at_ok_nonneg; [ | exact Hth ]; lia).
  assert (Hback : float_at (tokens line) (len (tokens line) - 3)
                  = Ok (stamp rec)).
  { unfold float_at in *. change (-3) with (- (3)) in Hst.
    rewrite py_index_neg_from_front in Hst by lia. exact Hst. }
  repeat split; intros Hl; rewrite Hl in Hback.
  - replace (n + 5 - 3) with (2 + n) in Hback by lia.
    rewrite Hx in Hback. inversion Hback; reflexivity.
  - replace (n + 6 - 3) with (2 + n + 1) in Hback by lia.
    rewrite Hy in Hback. inversion Hback; reflexivity.
  - replace (n + 7 - 3) with (2 + n + 2) in Hback by lia.
    rewrite Hth in Hback. inversion Hback; reflexivity.
Qed.

Lemma legacy_stamp_aliases_pose_witness :
  exists rec p,
    _parse_flaser example_reader flaser_no_trailer_line = Some rec /\
    robot_pose rec = Some p /\ stamp rec = x p.
Proof.
  assert (H : { rec : LaserScan2DRecord & { p |
                _parse_flaser example_reader flaser_no_trailer_line = Some rec
                /\ robot_pose rec = Some p } }).
  { do 2 eexists. split; vm_compute; reflexivity. }
  destruct H as (rec & p & Hrec & Hp).
  exists rec, p. split; [ exact Hrec | split; [ exact Hp | ] ].
  apply (legacy_stamp_aliases_pose example_reader flaser_no_trailer_line
           rec 1 p Hrec).
  - vm_compute. reflexivity.
  - lia.
  - exact Hp.
  - vm_compute. reflexivity.
Defined.

(** X10. The divisor [max(n - 1, 1)] is never zero: a legacy line with a
    beam count of 2 or less (one beam, none, or a negative count) that
    gives a record gives it with [angle_increment] equal to the whole span,
    [math.pi]. *)
Theorem legacy_increment_of_small_counts
    (self : CarmenLogReader) (line : string) (rec : LaserScan2DRecord) (n : Z) :
  _parse_flaser self line = Some rec ->
  int_at (tokens line) 1 = Ok n -> n <= 2 ->
  angle_increment rec = math_pi.
Proof.
  intros Hrec Hn Hn2. apply parse_flaser_some in Hrec.
  destruct (flaser_body_ok _ _ _ Hrec)
    as (n' & px & py & pth & Hn' & _ & _ & _ & _ & _ & _ & Hinc & _).
  rewrite Hn in Hn'. inversion Hn'; subst n'.
  replace (Z.max (n - 1) 1) with 1 in Hinc by lia.
  assert (Hpi : py_truediv_int
                  (fsub (fdiv math_pi f2) (fdiv (fopp math_pi) f2)) 1
                = Ok math_pi) by (vm_compute; reflexivity).
  rewrite Hpi in Hinc. inversion Hinc. reflexivity.
Qed.

Lemma legacy_increment_of_small_counts_witness :
  exists rec,
    _parse_flaser example_reader flaser_negative_count_line = Some rec /\
    angle_increment rec = math_pi.
Proof.
  assert (H : { rec | _parse_flaser example_reader flaser_negative_count_line
                      = Some rec }).
  { eexists. vm_compute. reflexivity. }
  destruct H as [rec Hrec].
  exists rec. split; [ exact Hrec | ].
  apply (legacy_increment_of_small_counts example_reader
           flaser_negative_count_line rec (-1) Hrec).
  - vm_compute. reflexivity.
  - lia.
Defined.

(** ** The checks of the validation script *)

Lemma fltb_not_nan (a b : float) :
  fltb a b = true -> is_nan a = false /\ is_nan b = false.
Proof.
  unfold fltb, SFltb.
  destruct a as [ [] | [] | | [] ma ea ], b as [ [] | [] | | [] mb eb ];
    simpl; intros H; try discriminate H; split; reflexivity.
Qed.

Lemma fltb_trans (a b c : float) :
  fltb a b = true -> fltb b c = true -> fltb a c = true.
Proof.
  unfold fltb, SFltb, SFcompare.
  destruct a as [ [] | [] | | [] ma ea ], b as [ [] | [] | | [] mb eb ],
    c as [ [] | [] | | [] mc ec ];
    try order_case;
    fold (Pos.compare ma mb); fold (Pos.compare mb mc); fold (Pos.compare ma mc);
    destruct (Z.compare_spec ea eb); destruct (Z.compare_spec eb ec);
    destruct (Z.compare_spec ea ec); try lia; try order_case;
    subst;
    destruct (Pos.compare_spec ma mb); destruct (Pos.compare_spec mb mc);
    destruct (Pos.compare_spec ma mc); try lia; order_case.
Qed.

Lemma fltb_irrefl (a : float) : fltb a a = false.
Proof.
  unfold fltb, SFltb, SFcompare.
  destruct a as [ [] | [] | | [] m e ]; try reflexivity;
    rewrite Z.compare_refl; fold (Pos.compare m m);
    rewrite Pos.compare_refl; reflexivity.
Qed.

(** In an increasing list the head is below everything after it. *)
Lemma monotonic_head (a : float) (l : list float) :
  monotonic (a :: l) = true ->
  Forall (fun b => fltb a b = true) l /\ monotonic l = true.
Proof.
  revert a. induction l as [ | b l IH]; intros a H.
  - split; [ constructor | reflexivity ].
  - cbn [monotonic] in H. apply andb_true_iff in H. destruct H as [Hab Hl].
    split; [ | exact Hl ].
    destruct (IH b Hl) as [Hall _].
    constructor; [ exact Hab | ].
    eapply Forall_impl; [ | exact Hall ].
    intros c Hbc. eapply fltb_trans; eassumption.
Qed.

Lemma monotonic_pairwise (l : list float) (i j : nat) (a b : float) :
  monotonic l = true ->
  nth_error l i = Some a -> nth_error l j = Some b -> (i < j)%nat ->
  fltb a b = true.
Proof.
  revert i j. induction l as [ | c l IH]; intros i j Hm Hi Hj Hij.
  - destruct i; discriminate Hi.
  - destruct (monotonic_head c l Hm) as [Hall Hl].
    destruct j as [ | j]; [ lia | ]. simpl in Hj.
    destruct i as [ | i]; simpl in Hi.
    + inversion Hi; subst c.
      rewrite Forall_forall in Hall. apply Hall.
      eapply nth_error_In; exact Hj.
    + apply (IH i j Hl Hi Hj). lia.
Qed.

Lemma monotonic_no_nan (l : list float) :
  monotonic l = true -> (2 <= List.length l)%nat -> existsb is_nan l = false.
Proof.
  intros Hm Hlen.
  destruct (existsb is_nan l) eqn:He; [ exfalso | reflexivity ].
  apply existsb_exists in He. destruct He as (a & Hin & Hnan).
  apply In_nth_error in Hin. destruct Hin as [i Hi].
  assert (Hi' : (i < List.length l)%nat)
    by (apply nth_error_Some; rewrite Hi; discriminate).
  destruct i as [ | i].
  - destruct (nth_error l 1) as [b | ] eqn:Hb;
      [ | apply nth_error_None in Hb; lia ].
    pose proof (monotonic_pairwise l 0 1 a b Hm Hi Hb ltac:(lia)) as Hlt.
    apply fltb_not_nan in Hlt. destruct Hlt as [Ha _].
    rewrite Ha in Hnan. discriminate Hnan.
  - destruct (nth_error l 0) as [b | ] eqn:Hb;
      [ | apply nth_error_None in Hb; lia ].
    pose proof (monotonic_pairwise l 0 (S i) b a Hm Hb Hi ltac:(lia)) as Hlt.
    apply fltb_not_nan in Hlt. destruct Hlt as [_ Ha].
    rewrite Ha in Hnan. discriminate Hnan.
Qed.

(** X11. When the script reports strictly increasing timestamps for two
    scans or more, it reports no NaN: a NaN stamp fails every comparison,
    so it cannot hide in a log that passes the check.  (With fewer than two
    scans the check compares nothing.) *)
Theorem increasing_report_excludes_nan (lines : list string) :
  timestamps_strictly_increasing (validate_carmen_log lines) = true ->
  2 <= total_scans (validate_carmen_log lines) ->
  any_nan (validate_carmen_log lines) = false.
Proof.
  unfold validate_carmen_log; cbv zeta; cbn [timestamps_strictly_increasing
    total_scans any_nan].
  intros Hm Hlen. apply monotonic_no_nan; [ exact Hm | ].
  unfold len in Hlen. lia.
Qed.

Lemma increasing_report_excludes_nan_witness :
  any_nan (validate_carmen_log example_log) = false.
Proof.
  apply increasing_report_excludes_nan.
  - vm_compute. reflexivity.
  - vm_compute. discriminate.
Defined.

(** X12. The check compares neighbours only, yet when it passes every
    scan is stamped before every later scan, so no two scans of the log
    share a stamp. *)
Theorem increasing_report_orders_all_scans
    (lines : list string) (i j : nat) (si sj : LaserScan2DRecord) :
  timestamps_strictly_increasing (validate_carmen_log lines) = true ->
  nth_error (iter_scans reader lines) i = Some si ->
  nth_error (iter_scans reader lines) j = Some sj ->
  (i < j)%nat ->
  fltb (stamp si) (stamp sj) = true /\ stamp si <> stamp sj.
Proof.
  unfold validate_carmen_log; cbv zeta; cbn [timestamps_strictly_increasing].
  intros Hm Hi Hj Hij.
  assert (Hlt : fltb (stamp si) (stamp sj) = true).
  { apply (monotonic_pairwise (stamps_of (iter_scans reader lines)) i j);
      try assumption; unfold stamps_of.
    - rewrite nth_error_map, Hi. reflexivity.
    - rewrite nth_error_map, Hj. reflexivity. }
  split; [ exact Hlt | ].
  intros Heq. rewrite Heq, fltb_irrefl in Hlt. discriminate Hlt.
Qed.

Lemma increasing_report_orders_all_scans_witness :
  exists si sj,
    nth_error (iter_scans reader example_log) 0 = Some si /\
    nth_error (iter_scans reader example_log) 2 = Some sj /\
    fltb (stamp si) (stamp sj) = true.
Proof.
  assert (H : { si : LaserScan2DRecord & { sj |
                nth_error (iter_scans reader example_log) 0 = Some si
                /\ nth_error (iter_scans reader example_log) 2 = Some sj } }).
  { do 2 eexists. split; vm_compute; reflexivity. }
  destruct H as (si & sj & Hi & Hj).
  exists si, sj. split; [ exact Hi | split; [ exact Hj | ] ].
  apply (increasing_report_orders_all_scans example_log 0 2 si sj).
  - vm_compute. reflexivity.
  - exact Hi.
  - exact Hj.
  - lia.
Defined.

(** The beam count a line declares, at the position its decoder reads. *)
Lemma record_ranges_length self line rec :
  dispatch self line = Some rec ->
  exists n,
    ((startswith line "ROBOTLASER" = true /\ int_at (tokens line) 8 = Ok n)
     \/ ((startswith line "FLASER " = true \/ startswith line "RLASER " = true)
         /\ int_at (tokens line) 1 = Ok n))
    /\ (0 <= n -> len (ranges rec) = n).
Proof.
  intros Hd.
  destruct (dispatch_some _ _ _ Hd) as [[Htag Hp] | (_ & Htag & Hp)].
  - destruct (parse_robotlaser_some _ _ _ Hp) as (h & Hpre & _).
    destruct (robotlaser_prefix_ok _ _ Hpre) as (_ & _ & _ & Hn & _).
    exists (h_n h). split; [ left; auto | ]. intros Hn0.
    destruct (robotlaser_run_inside _ _ _ _ Hp Hn Hn0) as [Hlen Hr].
    apply mapM_length in Hr. unfold len at 1. rewrite Hr.
    fold (len (py_slice (tokens line) 9 (9 + h_n h))).
    rewrite py_slice_length; lia.
  - pose proof (parse_flaser_some _ _ _ Hp) as Hb.
    destruct (flaser_body_ok _ _ _ Hb) as (n & px & py & pth & Hn & _).
    exists n. split; [ right; auto | ]. intros Hn0.
    destruct (flaser_run_inside _ _ _ _ Hp Hn Hn0) as [Hlen Hr].
    apply mapM_length in Hr. unfold len at 1. rewrite Hr.
    fold (len (py_slice (tokens line) 2 (2 + n))).
    rewrite py_slice_length; lia.
Qed.

(** X13. Every scan size the script reports is the size of a scan decoded
    from a line of the log, and equals the beam count that line declares
    unless that count is negative; so the script reports an empty scan only
    when some line that decodes declares a beam count of 0 or less.  There
    are at most as many scans as lines, and no size is reported twice. *)
Theorem reported_sizes_are_declared_counts (lines : list string) :
  let report := validate_carmen_log lines in
  (forall s,
     In s (unique_scan_sizes report) ->
     exists line rec n,
       In line lines /\ dispatch reader line = Some rec /\
       len (ranges rec) = s /\
       ((startswith line "ROBOTLASER" = true /\ int_at (tokens line) 8 = Ok n)
        \/ ((startswith line "FLASER " = true
             \/ startswith line "RLASER " = true)
            /\ int_at (tokens line) 1 = Ok n))
       /\ (0 <= n -> s = n)) /\
  (any_empty report = true ->
   exists line rec n,
     In line lines /\ dispatch reader line = Some rec /\
     ((startswith line "ROBOTLASER" = true /\ int_at (tokens line) 8 = Ok n)
      \/ ((startswith line "FLASER " = true \/ startswith line "RLASER " = true)
          /\ int_at (tokens line) 1 = Ok n))
     /\ n <= 0) /\
  total_scans report <= len lines /\
  NoDup (unique_scan_sizes report).
Proof.
  unfold validate_carmen_log; cbv zeta;
    cbn [unique_scan_sizes any_empty total_scans].
  assert (Hsize : forall s,
             In s (scan_sizes_of (iter_scans reader lines)) ->
             exists line rec n,
               In line lines /\ dispatch reader line = Some rec /\
               len (ranges rec) = s /\
               ((startswith line "ROBOTLASER" = true
                 /\ int_at (tokens line) 8 = Ok n)
                \/ ((startswith line "FLASER " = true
                     \/ startswith line "RLASER " = true)
                    /\ int_at (tokens line) 1 = Ok n))
               /\ (0 <= n -> s = n)).
  { intros s Hin. unfold scan_sizes_of in Hin. apply in_map_iff in Hin.
    destruct Hin as (rec & Hs & Hrec).
    destruct (iter_scans_origin _ _ _ Hrec) as (line & Hl & Hd).
    destruct (record_ranges_length _ _ _ Hd) as (n & Htag & Hn).
    exists line, rec, n. repeat split; try assumption.
    intros Hn0. rewrite <- Hs. apply Hn. exact Hn0. }
  split; [ | split; [ | split ] ].
  - intros s Hin. apply Hsize. unfold unique_sizes in Hin.
    apply nodup_In in Hin. exact Hin.
  - intros Hany. unfold any_empty_scans in Hany.
    apply existsb_exists in Hany. destruct Hany as (s & Hin & Hs).
    apply Z.eqb_eq in Hs. subst s.
    destruct (Hsize 0 Hin) as (line & rec & n & Hl & Hd & _ & Htag & Hn).
    exists line, rec, n. repeat split; try assumption.
    destruct (Z.le_gt_cases n 0) as [H | H]; [ exact H | ].
    specialize (Hn ltac:(lia)). lia.
  - unfold stamps_of, len. rewrite length_map.
    pose proof (iter_scans_length reader lines). lia.
  - apply NoDup_nodup.
Qed.

(** ** Tokens, tags and newlines *)

Lemma split_acc_lstrip (cs : list ascii) :
  split_acc [] (lstrip cs) = split_acc [] cs.
Proof.
  induction cs as [ | c cs IH]; simpl; [ reflexivity | ].
  destruct (py_isspace c) eqn:Hc; [ exact IH | ].
  simpl. rewrite Hc. reflexivity.
Qed.

(** What [lstrip] removes is white space. *)
Lemma lstrip_decompose (cs : list ascii) :
  exists ws, forallb py_isspace ws = true /\ cs = ws ++ lstrip cs.
Proof.
  induction cs as [ | c cs (ws & Hws & Hcs)]; simpl.
  - exists []. split; reflexivity.
  - destruct (py_isspace c) eqn:Hc.
    + exists (c :: ws). simpl. rewrite Hc, Hws. split; [ reflexivity | ].
      f_equal. exact Hcs.
    + exists []. split; reflexivity.
Qed.

(** White space at the end of a line adds no token. *)
Lemma split_acc_trailing (ws : list ascii) :
  forallb py_isspace ws = true ->
  forall r cur, split_acc cur (r ++ ws) = split_acc cur r.
Proof.
  intros Hws.
  assert (Hnil : forall cur, split_acc cur ws = split_acc cur []).
  { induction ws as [ | w ws IH]; intros cur; [ reflexivity | ].
    simpl in Hws. apply andb_true_iff in Hws. destruct Hws as [Hw Hws].
    simpl. rewrite Hw. rewrite (IH Hws []). simpl.
    destruct cur; reflexivity. }
  induction r as [ | c r IH]; intros cur; simpl; [ apply Hnil | ].
  destruct (py_isspace c); [ | apply IH ].
  rewrite (IH []). reflexivity.
Qed.

(** [line.strip().split()] is [line.split()]. *)
Lemma tokens_split (line : string) : tokens line = py_split line.
Proof.
  unfold tokens, py_split, py_strip, chars_strip.
  rewrite list_ascii_of_string_of_list_ascii.
  set (cs := list_ascii_of_string line).
  destruct (lstrip_decompose (rev (lstrip cs))) as (ws & Hws & Hrev).
  assert (Hcs : lstrip cs = rev (lstrip (rev (lstrip cs))) ++ rev ws).
  { rewrite <- (rev_involutive (lstrip cs)) at 1.
    rewrite Hrev at 1. rewrite rev_app_distr. reflexivity. }
  rewrite <- (split_acc_lstrip cs). rewrite Hcs at 2.
  rewrite split_acc_trailing; [ reflexivity | ].
  rewrite forallb_forall in *. intros c Hc. apply Hws.
  apply in_rev. exact Hc.
Qed.

Lemma list_ascii_of_string_append (s1 s2 : string) :
  list_ascii_of_string (String.append s1 s2)
  = list_ascii_of_string s1 ++ list_ascii_of_string s2.
Proof.
  induction s1 as [ | c s1 IH]; simpl; [ reflexivity | ].
  rewrite IH. reflexivity.
Qed.

(** The first token is out of the reach of a read at position 1 and of a
    slice from position 2; a float read reaches it only through its
    parse. *)
Lemma float_at_head (a b : string) (l : list string) (i : Z) :
  py_float a = py_float b -> float_at (a :: l) i = float_at (b :: l) i.
Proof.
  intros Hab. unfold float_at, py_index.
  change (len (b :: l)) with (len (a :: l)).
  destruct ((if i <? 0 then i + len (a :: l) else i) <? 0); [ reflexivity | ].
  destruct (Z.to_nat (if i <? 0 then i + len (a :: l) else i)) as [ | k];
    simpl; [ exact Hab | reflexivity ].
Qed.

Lemma py_slice_from_2_head {A : Type} (a b : A) (l : list A) (k : Z) :
  py_slice (a :: l) 2 k = py_slice (b :: l) 2 k.
Proof.
  unfold py_slice. change (len (b :: l)) with (len (a :: l)).
  set (start := py_clamp (len (a :: l)) 2).
  assert (Hstart : 1 <= start).
  { subst start. unfold py_clamp. rewrite len_cons.
    pose proof (len_nonneg l).
    change (2 <? 0) with false. cbv iota.
    destruct (len l + 1 <=? 2); lia. }
  destruct (Z.to_nat start) as [ | n] eqn:Hn; [ lia | reflexivity ].
Qed.

Lemma flaser_body_head (self : CarmenLogReader) (a b : string)
    (l : list string) :
  py_float a = py_float b ->
  flaser_body self (a :: l) = flaser_body self (b :: l).
Proof.
  intros Hab. unfold flaser_body; cbv zeta; norm_idx.
  change (int_at (a :: l) 1) with (int_at (b :: l) 1).
  destruct (int_at (b :: l) 1) as [n | e]; cbn [bind]; [ | reflexivity ].
  rewrite (py_slice_from_2_head a b l).
  destruct (mapM py_float (py_slice (b :: l) 2 (2 + n))) as [rs | e];
    cbn [bind]; [ | reflexivity ].
  rewrite !(float_at_head a b l _ Hab). reflexivity.
Qed.

Lemma prefix_append (p s : string) : prefix p (String.append p s) = true.
Proof.
  induction p as [ | a p IH]; [ destruct s; reflexivity | ].
  change (String.append (String a p) s) with (String a (String.append p s)).
  rewrite prefix_cons, Ascii.eqb_refl, IH. reflexivity.
Qed.

(** X14. The two legacy tags are interchangeable: the same fields after
    [FLASER ] and after [RLASER ] give the same result, record or none.
    The tag itself is never decoded, not even by an index that wraps
    around to it. *)
Theorem legacy_tags_are_interchangeable
    (self : CarmenLogReader) (fields : string) :
  dispatch self (String.append "FLASER " fields)
  = dispatch self (String.append "RLASER " fields).
Proof.
  rewrite (dispatch_legacy self (String.append "FLASER " fields))
    by (left; apply prefix_append).
  rewrite (dispatch_legacy self (String.append "RLASER " fields))
    by (right; apply prefix_append).
  unfold _parse_flaser; cbv zeta. rewrite !tokens_split.
  change (py_split (String.append "FLASER " fields))
    with ("FLASER" :: py_split fields).
  change (py_split (String.append "RLASER " fields))
    with ("RLASER" :: py_split fields).
  rewrite (flaser_body_head self "FLASER" "RLASER");
    [ reflexivity | vm_compute; reflexivity ].
Qed.

(** A character that does not occur in a tag cannot complete it. *)
Lemma prefix_app_other (c : ascii) (p s : string) :
  (forall n, get n p <> Some c) ->
  prefix p (String.append s (String c EmptyString)) = prefix p s.
Proof.
  revert s. induction p as [ | a p IH]; intros s Hc; [ destruct s; reflexivity | ].
  assert (Hp : forall n, get n p <> Some c)
    by (intros n; apply (Hc (S n))).
  destruct s as [ | b s].
  - change (String.append "" (String c "")) with (String c "").
    rewrite prefix_cons.
    destruct (Ascii.eqb a c) eqn:Hac; [ | reflexivity ].
    apply Ascii.eqb_eq in Hac. subst a. exfalso. apply (Hc 0%nat). reflexivity.
  - change (String.append (String b s) (String c ""))
      with (String b (String.append s (String c ""))).
    rewrite !prefix_cons, (IH s Hp). reflexivity.
Qed.

Lemma newline_not_in_tag (p : string) :
  p = "ROBOTLASER" \/ p = "FLASER " \/ p = "RLASER " ->
  forall n, get n p <> Some "010"%char.
Proof.
  intros [-> | [-> | ->]] n;
    do 11 (destruct n as [ | n]; [ discriminate | ]); discriminate.
Qed.

Lemma tokens_with_newline (line : string) :
  tokens (with_newline line) = tokens line.
Proof.
  rewrite !tokens_split. unfold py_split, with_newline.
  rewrite list_ascii_of_string_append.
  apply split_acc_trailing. reflexivity.
Qed.

Lemma dispatch_with_newline (self : CarmenLogReader) (line : string) :
  dispatch self (with_newline line) = dispatch self line.
Proof.
  unfold dispatch, _parse_rlaser, _parse_robotlaser, _parse_flaser, startswith;
    cbv zeta.
  rewrite tokens_with_newline. unfold with_newline.
  rewrite !prefix_app_other by (apply newline_not_in_tag; auto).
  reflexivity.
Qed.

(** X15. The records do not depend on the newline that ends a line: a
    stream gives the same records whether its lines carry their newline,
    as the lines of a text file do, or not, as its last line may. *)
Theorem newline_is_irrelevant (self : CarmenLogReader) (lines : list string) :
  iter_scans self (map with_newline lines) = iter_scans self lines.
Proof.
  induction lines as [ | line rest IH]; simpl; [ reflexivity | ].
  rewrite dispatch_with_newline, IH.
  destruct line as [ | c s].
  - reflexivity.
  - change (skipped (with_newline (String c s))) with (skipped (String c s)).
    reflexivity.
Qed.

(** ** [range_max] of a legacy record *)

(** X16. In every record of a legacy line, well formed or not, [range_max]
    bounds the ranges when none of them is a NaN: it is one of the ranges
    and no range is above it; without ranges it is 0.0. *)
Theorem legacy_range_max_bounds_ranges
    (self : CarmenLogReader) (line : string) (rec : LaserScan2DRecord) :
  _parse_flaser self line = Some rec ->
  forallb (fun a => negb (is_nan a)) (ranges rec) = true ->
  (ranges rec = [] -> range_max rec = f0) /\
  (ranges rec <> [] ->
   In (range_max rec) (ranges rec) /\
   Forall (fun a => fleb a (range_max rec) = true) (ranges rec)).
Proof.
  intros Hrec Hnan. apply parse_flaser_some in Hrec.
  destruct (flaser_body_ok _ _ _ Hrec)
    as (n & px & py & pth & _ & _ & _ & _ & _ & _ & _ & _ & _ & _ & Hmax & _).
  rewrite Hmax. split.
  - intros ->. reflexivity.
  - intros Hne. apply max_or_zero_is_max; assumption.
Qed.

Lemma legacy_range_max_bounds_ranges_witness :
  exists rec,
    _parse_flaser example_reader flaser_example_line = Some rec /\
    In (range_max rec) (ranges rec).
Proof.
  assert (H : { rec | _parse_flaser example_reader flaser_example_line
                      = Some rec
                      /\ forallb (fun a => negb (is_nan a)) (ranges rec) = true
                      /\ ranges rec <> [] }).
  { eexists. split; [ vm_compute; reflexivity | ].
    split; [ vm_compute; reflexivity | vm_compute; discriminate ]. }
  destruct H as (rec & Hrec & Hnan & Hne).
  exists rec. split; [ exact Hrec | ].
  apply (legacy_range_max_bounds_ranges example_reader flaser_example_line
           rec Hrec Hnan).
  exact Hne.
Defined.

Lemma fltb_nan_r (m : float) : fltb m S754_nan = false.
Proof. destruct m as [ [] | [] | | [] ? ? ]; reflexivity. Qed.

Lemma max_from_skips_nan (l1 l2 : list float) (m : float) :
  max_from m (l1 ++ S754_nan :: l2) = max_from m (l1 ++ l2).
Proof.
  revert m. induction l1 as [ | a l1 IH]; intros m; simpl.
  - rewrite fltb_nan_r. reflexivity.
  - apply IH.
Qed.

Lemma max_from_nan (l : list float) : max_from S754_nan l = S754_nan.
Proof.
  induction l as [ | a l IH]; simpl; [ reflexivity | exact IH ].
Qed.

(** X17. A range token [nan] is a numeral, and [max(ranges)] treats it by
    position: in a record of a legacy line a NaN as first range makes
    [range_max] a NaN whatever the other ranges are, while a NaN at any
    later position is passed over, [range_max] being what it is without
    it. *)
Theorem legacy_range_max_and_nan
    (self : CarmenLogReader) (line : string) (rec : LaserScan2DRecord) :
  _parse_flaser self line = Some rec ->
  (forall rest, ranges rec = S754_nan :: rest -> range_max rec = S754_nan) /\
  (forall first before after,
     ranges rec = first :: before ++ S754_nan :: after ->
     range_max rec = max_or_zero (first :: before ++ after)).
Proof.
  intros Hrec. apply parse_flaser_some in Hrec.
  destruct (flaser_body_ok _ _ _ Hrec)
    as (n & px & py & pth & _ & _ & _ & _ & _ & _ & _ & _ & _ & _ & Hmax & _).
  rewrite Hmax. split.
  - intros rest ->. simpl. apply max_from_nan.
  - intros first before after ->. simpl. apply max_from_skips_nan.
Qed.

Lemma legacy_range_max_and_nan_witness :
  exists rec,
    _parse_flaser example_reader "FLASER 2 nan 7.5 1.0 2.0 3.0 9.5 host 9.6"
    = Some rec /\
    range_max rec = S754_nan.
Proof.
  assert (H : { rec : LaserScan2DRecord & { rest |
                _parse_flaser example_reader
                  "FLASER 2 nan 7.5 1.0 2.0 3.0 9.5 host 9.6" = Some rec
                /\ ranges rec = S754_nan :: rest } }).
  { do 2 eexists. split; vm_compute; reflexivity. }
  destruct H as (rec & rest & Hrec & Hr).
  exists rec. split; [ exact Hrec | ].
  exact (proj1 (legacy_range_max_and_nan example_reader _ rec Hrec) rest Hr).
Defined.
